(** * Smart olive irrigation backend: the irrigation decision engine

    A shallow embedding of the numeric engine of the backend, as it is
    written in

      - [main.py]            (module [Main]; [main_live_data.py] carries the
                              same three helpers, formula for formula),
      - [main_mock_data.py]  (module [MockData], the "1.1-fixed" variant),
      - [et0_service.py], [kc_service.py], [savings_service.py]
                             (modules [Et0Service], [KcService],
                              [SavingsService]: the micro-service copies),

    and of the code around it: the farm routes ([MainRoutes],
    [MockRoutes]), the forecast that [get_weather] of [main.py] builds from
    the OpenWeather answers ([MainWeather]) and the command-line pipeline of
    [main_live_data.py] ([LiveData]).

    Number model.  A Python [float] is modelled as a real number ([R]) and a
    Python [int] as [Z] (injected with [IZR] where Python promotes it).
    Arithmetic on [R] is exact: the rounding of binary64, infinities and NaN
    are not represented there, and a statement proved over [R] is to be
    read up to that rounding.  What the model keeps
    is every place where the Python code can raise: float division by zero
    ([ZeroDivisionError]), [math.acos] outside [-1, 1] and [math.log] of a
    non-positive number ([ValueError]), [math.exp] of an argument whose
    exponential exceeds the binary64 range ([OverflowError]), arithmetic on
    a [None] that [d.get(k)] returned ([TypeError]), a missing dictionary
    key ([KeyError]) and a list index out of range ([IndexError]).
    Dividing by a non-zero literal ([/ 2], [/ 100], [/ 365], [/ 1000],
    [/ 4]) cannot raise and is written as plain real division.

    Where the exact value of a binary64 operation matters (the two price
    formulas, the saved volume, [round(kc, 2)]), the code is modelled a
    second time on primitive binary64 floats, in module [Binary64], and
    evaluated there. *)

From Stdlib Require Import PrimFloat FloatOps SpecFloat.
From Stdlib Require Import Reals Lra Lia ZArith Bool Ascii String List.
Import ListNotations.

Set Warnings "-inexact-float".

Local Open Scope R_scope.

(** ** The Python runtime, as far as the engine uses it *)

Module Py.

Inductive exn : Type :=
| ZeroDivisionError
| ValueError
| KeyError
| IndexError
| OverflowError
| TypeError.

(** The outcome of evaluating a Python expression: a value, or a raised
    exception that propagates. *)
Inductive result (A : Type) : Type :=
| Ok (a : A)
| Raise (e : exn).

Arguments Ok {A} a.
Arguments Raise {A} e.

Definition bind {A B : Type} (c : result A) (k : A -> result B) : result B :=
  match c with
  | Ok a => k a
  | Raise e => Raise e
  end.

(** [try: x = c  except Exception: x = h] *)
Definition try_except {A : Type} (c : result A) (h : A) : A :=
  match c with
  | Ok a => a
  | Raise _ => h
  end.

Definition returns {A : Type} (c : result A) : Prop :=
  exists a, c = Ok a.

(** Comparisons of floats, as booleans. *)
Definition ltb (x y : R) : bool := if Rlt_dec x y then true else false.
Definition leb (x y : R) : bool := if Rle_dec x y then true else false.

(** [x / y] on floats. *)
Definition div (x y : R) : result R :=
  if Req_dec_T y 0 then Raise ZeroDivisionError else Ok (x / y).

(** A value found where the engine expects a number: a number, or the
    [None] that [d.get(k)] returns for a missing key and that JSON carries
    as [null].  Arithmetic on [None] raises [TypeError]; [num] is placed
    where the code first computes with the value. *)
Inductive obj : Type :=
| PyNone
| Num (x : R).

Coercion Num : R >-> obj.

Definition num (v : obj) : result R :=
  match v with
  | Num x => Ok x
  | PyNone => Raise TypeError
  end.

(** [math.radians], [math.tan], [math.exp], [math.acos], [math.log]. *)
Definition radians (x : R) : R := x * PI / 180.

(** [math.radians(90)] is the binary64 number next to [PI / 2], not
    [PI / 2]: [math.tan] is finite there and returns
    [1.633123935319537e+16] (and its opposite at [-90] degrees), where the
    tangent of the reals has its pole.  Between these two arguments
    [math.tan] is the tangent; the statements about the unclamped
    arc-cosine argument are made for latitudes in [-90, 90], where no other
    pole is reached. *)
Definition math_tan (x : R) : R :=
  if Req_dec_T x (PI / 2) then 16331239353195370
  else if Req_dec_T x (- (PI / 2)) then - 16331239353195370
  else tan x.

(** [math.exp(x)] raises [OverflowError] when [e^x] is beyond the largest
    binary64 number, that is for [x] above [1024 * ln 2] (about 709.78). *)
Definition math_exp (x : R) : result R :=
  if ltb (1024 * ln 2) x then Raise OverflowError else Ok (exp x).

Definition math_acos (x : R) : result R :=
  if leb (-1) x && leb x 1 then Ok (acos x) else Raise ValueError.

Definition math_log (x : R) : result R :=
  if ltb 0 x then Ok (ln x) else Raise ValueError.

(** [round(x)] to the nearest integer, ties to the even neighbour. *)
Definition round_half_even (x : R) : Z :=
  let n := Int_part x in
  let d := x - IZR n in
  if Rlt_dec d (1 / 2) then n
  else if Rlt_dec (1 / 2) d then (n + 1)%Z
  else if Z.even n then n else (n + 1)%Z.

(** [round(x, ndigits)] *)
Definition round (x : R) (ndigits : nat) : R :=
  IZR (round_half_even (x * 10 ^ ndigits)) / 10 ^ ndigits.

(** A dictionary entry that may be absent: [d.get(k, default)] and [d[k]]. *)
Definition get {V : Type} (entry : option V) (default : V) : V :=
  match entry with
  | Some v => v
  | None => default
  end.

Definition item {V : Type} (entry : option V) : result V :=
  match entry with
  | Some v => Ok v
  | None => Raise KeyError
  end.

(** [l[i]] *)
Definition index {V : Type} (l : list V) (i : nat) : result V :=
  match nth_error l i with
  | Some v => Ok v
  | None => Raise IndexError
  end.

(** A small literal dictionary keyed by strings, with [d.get(k, default)]. *)
Fixpoint lookup {V : Type} (d : list (string * V)) (k : string) (default : V) : V :=
  match d with
  | [] => default
  | (k', v) :: rest => if String.eqb k k' then v else lookup rest k default
  end.

End Py.

Import Py.

Notation "x <- c ;; k" := (bind c (fun x => k))
  (at level 61, c at next level, right associativity).

(** ** Data exchanged with the engine *)

(** The dictionary returned by [calculate_water_savings] / [calculate_savings].
    ([savings_service.py] names the second key [water_saved_m3].) *)
Record SavingsReport : Type := mkSavings {
  water_saved_liters : R;
  water_saved_cubic_meters : R;
  percentage_saved : R;
  cost_saved_tnd : R;
  cost_saved_usd : R
}.

(** One entry of [weather['forecast']]; a key may be missing, and the four
    readings may hold [None]: [fetch_weather_data] of [main_mock_data.py]
    stores [item['main'].get('humidity')] and the like.  The rain
    probability is always the result of a product, hence a number. *)
Record ForecastDay : Type := mkDay {
  temp_max : option obj;
  temp_min : option obj;
  humidity : option obj;
  wind_speed : option obj;
  weather : option string;
  rain_probability : option R
}.

(** The empty dictionary [{}] in the place of a forecast entry. *)
Definition empty_dict : ForecastDay :=
  {| temp_max := None; temp_min := None; humidity := None;
     wind_speed := None; weather := None; rain_probability := None |}.

(** [weather['current']] *)
Record Current : Type := mkCurrent {
  temperature : option obj;
  cur_humidity : option obj;
  cur_wind_speed : option obj;
  cur_weather : option string
}.

(** What the weather collaborator hands over. *)
Record Weather : Type := mkWeather {
  success : bool;
  current : Current;
  forecast : list ForecastDay
}.

(** The inputs of [calculate_irrigation] once the request body and the demo
    farm registry have been resolved, together with the two values the
    handler reads from its environment: the fetched weather and today's day
    of the year. *)
Record IrrigationRequest : Type := mkRequest {
  lat : R;
  size_hectares : R;
  tree_count : Z;
  ndvi_score : R;
  fetched : Weather;
  today : Z
}.

(** The numeric and classification fields of the JSON answer.  The
    free-text [message] and [schedule] and the formatted
    [efficiency_improvement] are presentation strings fixed by the same
    branches and are left out; [forecast_summary] is kept as the list of
    labels that the handler joins.  [weather_fetch_success] is a key of the
    [main_mock_data.py] answer only; its companion [weather_error] repeats
    the fetch error text and is left out as well. *)
Record Recommendation : Type := mkRecommendation {
  irrigation_needed_mm : R;
  irrigation_needed_m3 : R;
  irrigation_needed_liters : R;
  liters_per_tree_out : R;
  duration_hours_per_tree : R;
  urgency : string;
  health_status : string;
  ndvi_out : R;
  kc_coefficient : R;
  total_et0_mm : R;
  expected_rain_mm : R;
  current_temp : option obj;
  forecast_summary : list string;
  savings : SavingsReport;
  traditional_method_m3 : R;
  smart_method_m3 : R;
  weather_fetch_success : option bool
}.

Inductive Response : Type :=
| Success (r : Recommendation)
| Failure (status : Z) (error : string).

(** [sum(f(d) for d in l)] *)
Definition py_sum {A : Type} (f : A -> R) (l : list A) : R :=
  fold_left (fun acc d => acc + f d) l 0.

(** The four-band health classification shared by both handlers:
    [(health_status, urgency)]. *)
Definition classify (ndvi_score : R) : string * string :=
  if ltb ndvi_score 0.3 then ("Critical - High Stress", "urgent")%string
  else if ltb ndvi_score 0.5 then ("Moderate Stress", "high")%string
  else if ltb ndvi_score 0.7 then ("Healthy", "normal")%string
  else ("Excellent", "low")%string.

(** The literal [base_kc] dictionary, identical in every copy. *)
Definition base_kc : list (string * R) :=
  [("initial", 0.50); ("mid", 0.65); ("late", 0.60)]%string.

(** The NDVI adjustment ladder, identical in every copy. *)
Definition adjustment (ndvi_score : R) : R :=
  if ltb ndvi_score 0.3 then 0.15
  else if ltb ndvi_score 0.5 then 0.10
  else if ltb ndvi_score 0.7 then 0.05
  else 0.0.

(** The solar declination and the argument handed to the arc-cosine, written
    the same way in every copy of [calculate_et0]. *)
Definition solar_declination (day_of_year : Z) : R :=
  0.409 * sin ((2 * PI / 365) * IZR day_of_year - 1.39).

Definition sunset_arg (latitude : R) (day_of_year : Z) : R :=
  - math_tan (radians latitude) * math_tan (solar_declination day_of_year).

(** ** main.py (and, for the three helpers, main_live_data.py) *)

Module Main.

(** The local [u2] of [calculate_et0]. *)
Definition u2 (wind_speed : R) : result R :=
  l <- math_log (67.8 * 10 - 5.42) ;;
  c <- div 4.87 l ;;
  Ok (wind_speed * c).

(** The four readings arrive as they were stored; each is checked to be a
    number where the code first computes with it. *)
Definition calculate_et0
    (temp_max temp_min humidity wind_speed : obj) (latitude : R)
    (day_of_year : Z) : result R :=
  temp_max <- num temp_max ;;
  temp_min <- num temp_min ;;
  let temp_mean := (temp_max + temp_min) / 2 in
  let lat_rad := radians latitude in
  let solar_declination := solar_declination day_of_year in
  sunset_angle <- math_acos (sunset_arg latitude day_of_year) ;;
  let dr := 1 + 0.033 * cos (2 * PI * IZR day_of_year / 365) in
  let ra := 37.6 * dr *
            (sunset_angle * sin lat_rad * sin solar_declination +
             cos lat_rad * cos solar_declination * sin sunset_angle) in
  let rs := (0.25 + 0.5 * 1) * ra in
  let rn := 0.77 * rs - 0.9 in
  q_tmax <- div (17.27 * temp_max) (temp_max + 237.3) ;;
  x_tmax <- math_exp q_tmax ;;
  let e_tmax := 0.6108 * x_tmax in
  q_tmin <- div (17.27 * temp_min) (temp_min + 237.3) ;;
  x_tmin <- math_exp q_tmin ;;
  let e_tmin := 0.6108 * x_tmin in
  let es := (e_tmax + e_tmin) / 2 in
  humidity <- num humidity ;;
  let ea := es * (humidity / 100) in
  let vpd := es - ea in
  wind_speed <- num wind_speed ;;
  u2 <- u2 wind_speed ;;
  aero <- div (900 * (temp_mean + 273) * u2 * vpd) (temp_mean + 273) ;;
  et0 <- div (0.408 * rn + aero) (1 + 0.34 * u2) ;;
  Ok (Rmax 0 et0).

Definition calculate_crop_coefficient (ndvi_score : R) (growth_stage : string) : R :=
  lookup base_kc growth_stage 0.65 + adjustment ndvi_score.

(** The price is applied per liter ([* 0.0005]); [main_mock_data.py] applies
    it per cubic metre ([* 0.5]).  The two products are the same real number
    and different binary64 numbers: [Binary64.Main.calculate_water_savings]
    is this function on floats. *)
Definition calculate_water_savings (traditional_amount smart_amount : R)
    : result SavingsReport :=
  let water_saved_liters := (traditional_amount - smart_amount) * 1000 in
  q <- div (traditional_amount - smart_amount) traditional_amount ;;
  let percentage_saved := q * 100 in
  let cost_saved_tnd := water_saved_liters * 0.0005 in
  Ok {| water_saved_liters := round water_saved_liters 2;
        water_saved_cubic_meters := round (traditional_amount - smart_amount) 2;
        percentage_saved := round percentage_saved 2;
        cost_saved_tnd := round cost_saved_tnd 2;
        cost_saved_usd := round (cost_saved_tnd * 0.32) 2 |}.

(** The [for day in forecast] loop: [(total_et0, day_of_year)] is the
    loop state. *)
Fixpoint et0_loop (lat : R) (forecast : list ForecastDay)
    (total_et0 : R) (day_of_year : Z) : result R :=
  match forecast with
  | [] => Ok total_et0
  | day :: rest =>
      tmax <- item (temp_max day) ;;
      tmin <- item (temp_min day) ;;
      hum <- item (humidity day) ;;
      wind <- item (wind_speed day) ;;
      et0 <- calculate_et0 tmax tmin hum wind lat day_of_year ;;
      et0_loop lat rest (total_et0 + et0) (day_of_year + 1)
  end.

(** The locals of [calculate_irrigation] after the loop. *)
Definition expected_rain (forecast : list ForecastDay) : R :=
  py_sum (fun day => get (rain_probability day) 0 / 100 * 5) forecast.

Definition net_irrigation_mm (total_et0 kc expected_rain : R) : R :=
  let etc := total_et0 * kc in
  Rmax 0 (etc - expected_rain).

Definition irrigation_m3 (net_irrigation_mm size_hectares : R) : R :=
  let area_m2 := size_hectares * 10000 in
  (net_irrigation_mm / 1000) * area_m2.

Definition liters_per_tree (irrigation_m3 : R) (tree_count : Z) : result R :=
  let irrigation_liters := irrigation_m3 * 1000 in
  if (0 <? tree_count)%Z then div irrigation_liters (IZR tree_count) else Ok 0.

Definition hours_per_tree (liters_per_tree : R) : R :=
  if ltb 0 liters_per_tree then liters_per_tree / 4 else 0.

Definition traditional_m3 (irrigation_m3 : R) : R := irrigation_m3 * 1.5.

Definition calculate_irrigation (req : IrrigationRequest) : result Response :=
  let weather_data := fetched req in
  if negb (success weather_data) then
    Ok (Failure 500 "Weather data unavailable")
  else
    let current := current weather_data in
    let forecast := firstn 3 (forecast weather_data) in
    total_et0 <- et0_loop (lat req) forecast 0 (today req) ;;
    let kc := calculate_crop_coefficient (ndvi_score req) "mid" in
    let expected_rain := expected_rain forecast in
    let net_irrigation_mm := net_irrigation_mm total_et0 kc expected_rain in
    let irrigation_m3 := irrigation_m3 net_irrigation_mm (size_hectares req) in
    let irrigation_liters := irrigation_m3 * 1000 in
    liters_per_tree <- liters_per_tree irrigation_m3 (tree_count req) ;;
    let traditional_m3 := traditional_m3 irrigation_m3 in
    savings <- calculate_water_savings traditional_m3 irrigation_m3 ;;
    let hours_per_tree := hours_per_tree liters_per_tree in
    let '(health_status, urgency) := classify (ndvi_score req) in
    current_temp <- item (temperature current) ;;
    d0 <- index forecast 0 ;; w0 <- item (weather d0) ;;
    d1 <- index forecast 1 ;; w1 <- item (weather d1) ;;
    d2 <- index forecast 2 ;; w2 <- item (weather d2) ;;
    Ok (Success
          {| irrigation_needed_mm := round net_irrigation_mm 2;
             irrigation_needed_m3 := round irrigation_m3 2;
             irrigation_needed_liters := round irrigation_liters 2;
             liters_per_tree_out := round liters_per_tree 2;
             duration_hours_per_tree := round hours_per_tree 2;
             urgency := urgency;
             health_status := health_status;
             ndvi_out := ndvi_score req;
             kc_coefficient := round kc 3;
             total_et0_mm := round total_et0 2;
             expected_rain_mm := round expected_rain 2;
             current_temp := Some current_temp;
             forecast_summary := [w0; w1; w2];
             savings := savings;
             traditional_method_m3 := round traditional_m3 2;
             smart_method_m3 := round irrigation_m3 2;
             weather_fetch_success := None |}).

End Main.

(** ** main_mock_data.py *)

Module MockData.

(** The locals [z], [denom] and [u2] of [calculate_et0]. *)
Definition u2 (wind_speed : R) : result R :=
  let z := 10.0 in
  denom <- math_log (67.8 * z + 5.42) ;;
  if ltb 0 denom then
    c <- div 4.87 denom ;; Ok (wind_speed * c)
  else Ok wind_speed.

(** The value handed to [math.acos]: the clamped [sunset_arg]. *)
Definition acos_arg (latitude : R) (day_of_year : Z) : R :=
  Rmax (-1.0) (Rmin 1.0 (sunset_arg latitude day_of_year)).

Definition calculate_et0
    (temp_max temp_min humidity wind_speed : obj) (latitude : R)
    (day_of_year : Z) : result R :=
  temp_max <- num temp_max ;;
  temp_min <- num temp_min ;;
  let temp_mean := (temp_max + temp_min) / 2.0 in
  let lat_rad := radians latitude in
  let solar_declination := solar_declination day_of_year in
  sunset_angle <- math_acos (acos_arg latitude day_of_year) ;;
  let dr := 1 + 0.033 * cos (2 * PI * IZR day_of_year / 365) in
  let ra := 37.6 * dr *
            (sunset_angle * sin lat_rad * sin solar_declination +
             cos lat_rad * cos solar_declination * sin sunset_angle) in
  let rs := (0.25 + 0.5) * ra in
  let rn := Rmax 0.0 (0.77 * rs - 0.9) in
  q_tmax <- div (17.27 * temp_max) (temp_max + 237.3) ;;
  x_tmax <- math_exp q_tmax ;;
  let e_tmax := 0.6108 * x_tmax in
  q_tmin <- div (17.27 * temp_min) (temp_min + 237.3) ;;
  x_tmin <- math_exp q_tmin ;;
  let e_tmin := 0.6108 * x_tmin in
  let es := (e_tmax + e_tmin) / 2.0 in
  humidity <- num humidity ;;
  let ea := es * (humidity / 100.0) in
  let vpd := Rmax 0.0 (es - ea) in
  wind_speed <- num wind_speed ;;
  u2 <- u2 wind_speed ;;
  let et0 :=
    try_except
      (psy <- div 900.0 (temp_mean + 273.0) ;;
       div (0.408 * rn + psy * u2 * vpd) (1.0 + 0.34 * u2))
      0.0 in
  Ok (Rmax 0.0 et0).

Definition calculate_crop_coefficient (ndvi_score : R) (growth_stage : string) : R :=
  let kc := lookup base_kc growth_stage 0.65 + adjustment ndvi_score in
  Rmin (Rmax kc 0.4) 0.85.

Definition zero_report : SavingsReport :=
  {| water_saved_liters := 0.0;
     water_saved_cubic_meters := 0.0;
     percentage_saved := 0.0;
     cost_saved_tnd := 0.0;
     cost_saved_usd := 0.0 |}.

(** The local [water_saved_m3] of [calculate_water_savings]. *)
Definition water_saved_m3 (traditional_amount smart_amount : R) : R :=
  Rmax 0.0 (traditional_amount - smart_amount).

Definition calculate_water_savings (traditional_amount smart_amount : R)
    : result SavingsReport :=
  if leb traditional_amount 0 || ltb smart_amount 0 then Ok zero_report
  else
    let water_saved_m3 := water_saved_m3 traditional_amount smart_amount in
    let water_saved_liters := water_saved_m3 * 1000.0 in
    percentage_saved <-
      (if ltb 0 traditional_amount
       then q <- div water_saved_m3 traditional_amount ;; Ok (q * 100.0)
       else Ok 0.0) ;;
    let cost_saved_tnd := water_saved_m3 * 0.5 in
    let cost_saved_usd := cost_saved_tnd * 0.32 in
    Ok {| water_saved_liters := round water_saved_liters 2;
          water_saved_cubic_meters := round water_saved_m3 2;
          percentage_saved := round percentage_saved 2;
          cost_saved_tnd := round cost_saved_tnd 2;
          cost_saved_usd := round cost_saved_usd 2 |}.

(** The one-day forecast built from the current conditions when the
    window is empty.  A key of [current] that holds [None] hands that
    [None] over: only a missing key is replaced by the default. *)
Definition fallback_day (current : Current) : ForecastDay :=
  {| temp_max := Some (get (temperature current) (Num 28));
     temp_min := Some (get (temperature current) (Num 20));
     humidity := Some (get (cur_humidity current) (Num 65));
     wind_speed := Some (get (cur_wind_speed current) (Num 3.5));
     weather := Some (get (cur_weather current) "Clear"%string);
     rain_probability := Some 0 |}.

(** [forecast = weather.get('forecast', [])[:3]] followed by
    [if not forecast: forecast = [...]]. *)
Definition window (weather : Weather) : list ForecastDay :=
  let forecast := firstn 3 (forecast weather) in
  match forecast with
  | [] => [fallback_day (current weather)]
  | _ :: _ => forecast
  end.

Fixpoint et0_loop (lat : R) (forecast : list ForecastDay)
    (total_et0 : R) (day_of_year : Z) : result R :=
  match forecast with
  | [] => Ok total_et0
  | day :: rest =>
      et0 <- calculate_et0
               (get (temp_max day) (Num 28)) (get (temp_min day) (Num 18))
               (get (humidity day) (Num 65)) (get (wind_speed day) (Num 3.5))
               lat day_of_year ;;
      et0_loop lat rest (total_et0 + et0) (day_of_year + 1)
  end.

Definition expected_rain (forecast : list ForecastDay) : R :=
  py_sum (fun d => (get (rain_probability d) 0 / 100.0) * 5.0) forecast.

Definition net_irrigation_mm (total_et0 kc expected_rain : R) : R :=
  let etc := total_et0 * kc in
  Rmax 0.0 (etc - expected_rain).

Definition irrigation_m3 (net_irrigation_mm size_hectares : R) : R :=
  let area_m2 := Rmax 0.0 size_hectares * 10000.0 in
  (net_irrigation_mm / 1000.0) * area_m2.

Definition liters_per_tree (irrigation_m3 : R) (tree_count : Z) : result R :=
  let irrigation_liters := irrigation_m3 * 1000.0 in
  if (0 <? tree_count)%Z then div irrigation_liters (IZR tree_count) else Ok 0.0.

Definition hours_per_tree (liters_per_tree : R) : R :=
  if ltb 0 liters_per_tree then liters_per_tree / 4.0 else 0.0.

Definition traditional_m3 (irrigation_m3 : R) : R := irrigation_m3 * 1.5.

(** The handler from the point where the inputs are resolved.  Everything
    after the weather fetch runs on [forecast]; the second argument makes
    that dependency explicit. *)
Definition calculate_on (req : IrrigationRequest) (forecast : list ForecastDay)
    : result Response :=
  let weather_success := success (fetched req) in
  let current := current (fetched req) in
  total_et0 <- et0_loop (lat req) forecast 0.0 (today req) ;;
  let kc := calculate_crop_coefficient (ndvi_score req) "mid" in
  let expected_rain := expected_rain forecast in
  let net_irrigation_mm := net_irrigation_mm total_et0 kc expected_rain in
  let irrigation_m3 := irrigation_m3 net_irrigation_mm (size_hectares req) in
  let irrigation_liters := irrigation_m3 * 1000.0 in
  liters_per_tree <- liters_per_tree irrigation_m3 (tree_count req) ;;
  let traditional_m3 := traditional_m3 irrigation_m3 in
  savings <- calculate_water_savings traditional_m3 irrigation_m3 ;;
  let hours_per_tree := hours_per_tree liters_per_tree in
  let '(health_status, urgency) := classify (ndvi_score req) in
  Ok (Success
        {| irrigation_needed_mm := round net_irrigation_mm 2;
           irrigation_needed_m3 := round irrigation_m3 3;
           irrigation_needed_liters := round irrigation_liters 2;
           liters_per_tree_out := round liters_per_tree 2;
           duration_hours_per_tree := round hours_per_tree 2;
           urgency := urgency;
           health_status := health_status;
           ndvi_out := round (ndvi_score req) 3;
           kc_coefficient := round kc 3;
           total_et0_mm := round total_et0 2;
           expected_rain_mm := round expected_rain 2;
           current_temp := temperature current;
           forecast_summary :=
             map (fun d => get (weather d) ""%string)
               (firstn 3 (forecast ++ [empty_dict]));
           savings := savings;
           traditional_method_m3 := round traditional_m3 3;
           smart_method_m3 := round irrigation_m3 3;
           weather_fetch_success := Some weather_success |}).

Definition calculate_irrigation (req : IrrigationRequest) : result Response :=
  calculate_on req (window (fetched req)).

End MockData.

(** ** The micro-service copies *)

Module Et0Service.

(** Lines 16-31 of [et0_service.py] are lines 66-97 of [main.py]; the
    handler returns [round(max(0, et0), 2)]. *)
Definition calculate_et0
    (temp_max temp_min humidity wind_speed latitude : R) (day_of_year : Z)
    : result R :=
  et0 <- Main.calculate_et0 temp_max temp_min humidity wind_speed latitude
           day_of_year ;;
  Ok (round et0 2).

End Et0Service.

Module KcService.

(** Over the reals the sum is one of 0.50, 0.55, ..., 0.80 and the rounding
    returns it unchanged.  On binary64 numbers [0.65 + 0.05] is
    [0.7000000000000001] and the rounding turns it into [0.7]:
    [Binary64.KcService.calculate_kc] is the same function on floats. *)
Definition calculate_kc (ndvi : R) (stage : string) : R :=
  let adj := adjustment ndvi in
  let kc := lookup base_kc stage 0.65 + adj in
  round kc 2.

End KcService.

Module SavingsService.

Definition calculate_savings (traditional smart : R) : result SavingsReport :=
  let water_saved_liters := (traditional - smart) * 1000 in
  q <- div (traditional - smart) traditional ;;
  let percentage_saved := q * 100 in
  let cost_saved_tnd := water_saved_liters * 0.0005 in
  Ok {| water_saved_liters := round water_saved_liters 2;
        water_saved_cubic_meters := round (traditional - smart) 2;
        percentage_saved := round percentage_saved 2;
        cost_saved_tnd := round cost_saved_tnd 2;
        cost_saved_usd := round (cost_saved_tnd * 0.32) 2 |}.

End SavingsService.

(** ** The same helpers on binary64 numbers

    The crop coefficient and the savings report are short sequences of
    binary64 operations.  They are written here a second time on primitive
    floats, operation for operation, so that what the code computes can be
    evaluated to the last bit. *)

Module Binary64.

Local Open Scope float_scope.

(** The binary64 number nearest to [n / d], ties to even: the quotient is
    taken with more than 60 significant bits and a sticky bit, and rounded
    once. *)
Definition nearest (n : Z) (d : positive) : float :=
  match n with
  | Z0 => 0
  | _ =>
      let s := Z.max 0 (64 + Z.log2 (Z.pos d) - Z.log2 (Z.abs n)) in
      let q := (Z.abs n * 2 ^ s / Z.pos d)%Z in
      let sticky :=
        if (Z.abs n * 2 ^ s mod Z.pos d =? 0)%Z then 0%Z else 1%Z in
      let f :=
        SF2Prim (binary_normalize prec emax (2 * q + sticky) (- s - 1) false) in
      if (n <? 0)%Z then - f else f
  end.

(** The integer nearest to [n / d], ties to even. *)
Definition half_even (n : Z) (d : positive) : Z :=
  let q := (n / Z.pos d)%Z in
  match (2 * (n mod Z.pos d) ?= Z.pos d)%Z with
  | Lt => q
  | Gt => (q + 1)%Z
  | Eq => if Z.even q then q else (q + 1)%Z
  end.

(** [round(x, ndigits)] on a float: the exact value of [x] is rounded to
    [ndigits] decimals, ties to even, and the decimal is returned as the
    nearest binary64 number; zeros, infinities and NaN are returned
    unchanged. *)
Definition round (x : float) (ndigits : nat) : float :=
  match Prim2SF x with
  | S754_finite s m e =>
      let p := Z.to_pos (10 ^ Z.of_nat ndigits) in
      let n := (Z.pos m * Z.pos p)%Z in
      let k := match e with
               | Z.neg e' => half_even n (Pos.pow 2 e')
               | _ => (n * 2 ^ e)%Z
               end in
      let r := nearest k p in
      if s then - r else r
  | _ => x
  end.

(** [x / y] *)
Definition div (x y : float) : result float :=
  if y =? 0 then Raise ZeroDivisionError else Ok (x / y).

(** [max(x, y)] and [min(x, y)] of two floats: the first argument unless the
    second is strictly larger (smaller). *)
Definition py_max (x y : float) : float := if x <? y then y else x.
Definition py_min (x y : float) : float := if y <? x then y else x.

Record SavingsReport : Type := mkSavings {
  water_saved_liters : float;
  water_saved_cubic_meters : float;
  percentage_saved : float;
  cost_saved_tnd : float;
  cost_saved_usd : float
}.

Definition base_kc : list (string * float) :=
  [("initial", 0.50); ("mid", 0.65); ("late", 0.60)]%string.

Definition adjustment (ndvi_score : float) : float :=
  if ndvi_score <? 0.3 then 0.15
  else if ndvi_score <? 0.5 then 0.10
  else if ndvi_score <? 0.7 then 0.05
  else 0.0.

Module Main.

Definition calculate_crop_coefficient (ndvi_score : float)
    (growth_stage : string) : float :=
  lookup base_kc growth_stage 0.65 + adjustment ndvi_score.

Definition calculate_water_savings (traditional_amount smart_amount : float)
    : result SavingsReport :=
  let water_saved_liters := (traditional_amount - smart_amount) * 1000 in
  q <- div (traditional_amount - smart_amount) traditional_amount ;;
  let percentage_saved := q * 100 in
  let cost_saved_tnd := water_saved_liters * 0.0005 in
  Ok {| water_saved_liters := round water_saved_liters 2;
        water_saved_cubic_meters := round (traditional_amount - smart_amount) 2;
        percentage_saved := round percentage_saved 2;
        cost_saved_tnd := round cost_saved_tnd 2;
        cost_saved_usd := round (cost_saved_tnd * 0.32) 2 |}.

(** [traditional_m3 = irrigation_m3 * 1.5] of [calculate_irrigation]. *)
Definition traditional_m3 (irrigation_m3 : float) : float :=
  irrigation_m3 * 1.5.

End Main.

Module MockData.

Definition calculate_crop_coefficient (ndvi_score : float)
    (growth_stage : string) : float :=
  let kc := lookup base_kc growth_stage 0.65 + adjustment ndvi_score in
  py_min (py_max kc 0.4) 0.85.

Definition zero_report : SavingsReport :=
  {| water_saved_liters := 0.0;
     water_saved_cubic_meters := 0.0;
     percentage_saved := 0.0;
     cost_saved_tnd := 0.0;
     cost_saved_usd := 0.0 |}.

Definition calculate_water_savings (traditional_amount smart_amount : float)
    : result SavingsReport :=
  if (traditional_amount <=? 0) || (smart_amount <? 0) then Ok zero_report
  else
    let water_saved_m3 := py_max 0.0 (traditional_amount - smart_amount) in
    let water_saved_liters := water_saved_m3 * 1000.0 in
    percentage_saved <-
      (if 0 <? traditional_amount
       then q <- div water_saved_m3 traditional_amount ;; Ok (q * 100.0)
       else Ok 0.0) ;;
    let cost_saved_tnd := water_saved_m3 * 0.5 in
    let cost_saved_usd := cost_saved_tnd * 0.32 in
    Ok {| water_saved_liters := round water_saved_liters 2;
          water_saved_cubic_meters := round water_saved_m3 2;
          percentage_saved := round percentage_saved 2;
          cost_saved_tnd := round cost_saved_tnd 2;
          cost_saved_usd := round cost_saved_usd 2 |}.

Definition traditional_m3 (irrigation_m3 : float) : float :=
  irrigation_m3 * 1.5.

End MockData.

Module KcService.

Definition calculate_kc (ndvi : float) (stage : string) : float :=
  let adj := adjustment ndvi in
  let kc := lookup base_kc stage 0.65 + adj in
  round kc 2.

End KcService.

(** Are the two cost fields of the reports of [main.py] and
    [main_mock_data.py] at most a cent apart? *)
Definition cost_reports_close (traditional smart : float) : bool :=
  match Main.calculate_water_savings traditional smart,
        MockData.calculate_water_savings traditional smart with
  | Ok a, Ok c =>
      (abs (cost_saved_tnd a - cost_saved_tnd c) <=? 0.011) &&
      (abs (cost_saved_usd a - cost_saved_usd c) <=? 0.011)
  | _, _ => false
  end.

(** The saved volumes [k / 100] for [k = first, first + 1, ...]: does
    [check] hold on the first [n] of them? *)
Fixpoint on_hundredths (check : float -> bool) (n : nat) (first : Z) : bool :=
  match n with
  | O => true
  | S n' =>
      check (nearest first 100) && on_hundredths check n' (first + 1)
  end.

End Binary64.

(** ** The demo farm registry and the routes that read it *)

(** An entry of [DEMO_FARMS], with the keys the handlers read; the
    descriptive keys ([name], [owner], [city], [tree_age_years],
    [irrigation_system], [soil_type], [last_irrigation]) are left out. *)
Record Farm : Type := mkFarm {
  location_lat : R;
  location_lon : R;
  farm_size_hectares : R;
  farm_tree_count : Z;
  farm_ndvi_score : R
}.

(** The registry is a module-level dictionary, the same in [main.py] and
    [main_mock_data.py]; the handlers below take it as an argument. *)
Definition DEMO_FARMS : list (string * Farm) :=
  [("farm_001"%string,
    {| location_lat := 35.8256; location_lon := 10.6369;
       farm_size_hectares := 2.0; farm_tree_count := 400;
       farm_ndvi_score := 0.45 |});
   ("farm_002"%string,
    {| location_lat := 35.7753; location_lon := 10.8256;
       farm_size_hectares := 5.0; farm_tree_count := 1000;
       farm_ndvi_score := 0.72 |});
   ("farm_003"%string,
    {| location_lat := 35.5047; location_lon := 11.0586;
       farm_size_hectares := 3.0; farm_tree_count := 600;
       farm_ndvi_score := 0.38 |})].

(** [d.get(k)] on a dictionary keyed by strings. *)
Fixpoint dict_get {V : Type} (d : list (string * V)) (k : string) : option V :=
  match d with
  | [] => None
  | (k', v) :: rest => if String.eqb k k' then Some v else dict_get rest k
  end.

(** The answer of a farm route: the payload, or the 404 body. *)
Inductive Reply (A : Type) : Type :=
| Answer (a : A)
| NotFound (error : string).

Arguments Answer {A} a.
Arguments NotFound {A} error.

Record Zone : Type := mkZone {
  zone : string;
  zone_ndvi : R;
  zone_status : string;
  area_pct : Z
}.

Record NdviReport : Type := mkNdviReport {
  overall_ndvi : R;
  acquisition_date : string;
  satellite : string;
  zones : list Zone;
  recommendations : list string
}.

(** The local [zones] of [get_ndvi]. *)
Definition ndvi_zones (ndvi_score : R) : list Zone :=
  if ltb ndvi_score 0.4 then
    [ {| zone := "North"; zone_ndvi := 0.35; zone_status := "Stressed"; area_pct := 40 |};
      {| zone := "Center"; zone_ndvi := 0.40; zone_status := "Moderate"; area_pct := 35 |};
      {| zone := "South"; zone_ndvi := 0.45; zone_status := "Moderate"; area_pct := 25 |} ]
  else if ltb ndvi_score 0.6 then
    [ {| zone := "North"; zone_ndvi := 0.50; zone_status := "Moderate"; area_pct := 30 |};
      {| zone := "Center"; zone_ndvi := 0.55; zone_status := "Healthy"; area_pct := 45 |};
      {| zone := "South"; zone_ndvi := 0.48; zone_status := "Moderate"; area_pct := 25 |} ]
  else
    [ {| zone := "North"; zone_ndvi := 0.70; zone_status := "Healthy"; area_pct := 40 |};
      {| zone := "Center"; zone_ndvi := 0.75; zone_status := "Excellent"; area_pct := 40 |};
      {| zone := "South"; zone_ndvi := 0.68; zone_status := "Healthy"; area_pct := 20 |} ].

(** [get_ndvi], written the same way in [main.py] and [main_mock_data.py]. *)
Definition get_ndvi (farms : list (string * Farm)) (farm_id : string)
    : Reply NdviReport :=
  match dict_get farms farm_id with
  | None => NotFound "Farm not found"
  | Some farm =>
      let ndvi_score := farm_ndvi_score farm in
      let zones := ndvi_zones ndvi_score in
      Answer
        {| overall_ndvi := ndvi_score;
           acquisition_date := "2025-10-22";
           satellite := "Sentinel-2";
           zones := zones;
           recommendations :=
             [ if ltb ndvi_score 0.5
               then "Focus irrigation on stressed zones"%string
               else "Maintain current irrigation schedule"%string;
               if existsb (fun z => String.eqb (zone_status z) "Stressed") zones
               then "Monitor North zone closely"%string
               else "All zones performing well"%string ] |}
  end.

(** The payload of [get_savings]; [monthly_breakdown] lists
    [(month, saved_m3, saved_tnd)]. *)
Record SeasonReport : Type := mkSeasonReport {
  traditional_usage_m3 : R;
  smart_usage_m3 : R;
  season_savings : SavingsReport;
  aquifer_preservation_m3 : R;
  co2_saved_kg : R;
  trees_equivalent : R;
  monthly_breakdown : list (string * R * R)
}.

Module MainRoutes.

Definition get_savings (farms : list (string * Farm)) (farm_id : string)
    : result (Reply SeasonReport) :=
  match dict_get farms farm_id with
  | None => Ok (NotFound "Farm not found")
  | Some farm =>
      let size := farm_size_hectares farm in
      let traditional_usage := size * 5000 in
      let smart_usage := size * 3200 in
      savings <- Main.calculate_water_savings traditional_usage smart_usage ;;
      Ok (Answer
            {| traditional_usage_m3 := traditional_usage;
               smart_usage_m3 := smart_usage;
               season_savings := savings;
               aquifer_preservation_m3 := water_saved_cubic_meters savings;
               co2_saved_kg := round (water_saved_cubic_meters savings * 0.5) 2;
               trees_equivalent := round (water_saved_cubic_meters savings / 100) 0;
               monthly_breakdown :=
                 [ ("Nov 2024"%string, round (traditional_usage * 0.08) 1,
                    round (traditional_usage * 0.08 * 0.5) 2);
                   ("Dec 2024"%string, round (traditional_usage * 0.06) 1,
                    round (traditional_usage * 0.06 * 0.5) 2);
                   ("Jan 2025"%string, round (traditional_usage * 0.05) 1,
                    round (traditional_usage * 0.05 * 0.5) 2) ] |})
  end.

End MainRoutes.

Module MockRoutes.

Definition get_savings (farms : list (string * Farm)) (farm_id : string)
    : result (Reply SeasonReport) :=
  match dict_get farms farm_id with
  | None => Ok (NotFound "Farm not found")
  | Some farm =>
      let size := farm_size_hectares farm in
      let traditional_usage := Rmax 0.0 size * 5000.0 in
      let smart_usage := Rmax 0.0 size * 3200.0 in
      savings <- MockData.calculate_water_savings traditional_usage smart_usage ;;
      Ok (Answer
            {| traditional_usage_m3 := round traditional_usage 2;
               smart_usage_m3 := round smart_usage 2;
               season_savings := savings;
               aquifer_preservation_m3 := water_saved_cubic_meters savings;
               co2_saved_kg := round (water_saved_cubic_meters savings * 0.5) 2;
               trees_equivalent := round (water_saved_cubic_meters savings / 100) 0;
               monthly_breakdown :=
                 [ ("Nov 2024"%string, round (traditional_usage * 0.08) 1,
                    round (traditional_usage * 0.08 * 0.5) 2);
                   ("Dec 2024"%string, round (traditional_usage * 0.06) 1,
                    round (traditional_usage * 0.06 * 0.5) 2);
                   ("Jan 2025"%string, round (traditional_usage * 0.05) 1,
                    round (traditional_usage * 0.05 * 0.5) 2) ] |})
  end.

End MockRoutes.

(** ** main.py: turning the OpenWeather answers into a forecast *)

Module MainWeather.

(** The parts of the two OpenWeather answers that [get_weather] reads.  A
    key may be missing; a key that is present holds a value of the expected
    JSON type. *)
Record RawMain : Type := mkRawMain {
  raw_temp : option R;
  raw_temp_max : option R;
  raw_temp_min : option R;
  raw_humidity : option R
}.

Record RawWind : Type := mkRawWind {
  raw_speed : option R
}.

Record RawTag : Type := mkRawTag {
  tag_main : option string;
  tag_description : option string
}.

Record RawItem : Type := mkRawItem {
  dt_txt : option string;
  item_main : option RawMain;
  item_wind : option RawWind;
  item_weather : option (list RawTag);
  pop : option R
}.

Record RawCurrent : Type := mkRawCurrent {
  cur_main : option RawMain;
  cur_wind : option RawWind;
  cur_tags : option (list RawTag)
}.

(** [s.split()[0]] for a string of ASCII characters: the first maximal run
    of characters that are not white space. *)
Definition is_space (c : ascii) : bool :=
  let n := nat_of_ascii c in
  ((9 <=? n) && (n <=? 13) || (28 <=? n) && (n <=? 32))%nat.

Fixpoint skip_spaces (s : string) : string :=
  match s with
  | EmptyString => EmptyString
  | String c rest => if is_space c then skip_spaces rest else s
  end.

Fixpoint take_word (s : string) : string :=
  match s with
  | EmptyString => EmptyString
  | String c rest => if is_space c then EmptyString else String c (take_word rest)
  end.

Definition split_first (s : string) : result string :=
  match skip_spaces s with
  | EmptyString => Raise IndexError
  | word => Ok (take_word word)
  end.

(** The dictionary appended for one forecast item.  Its [date] is computed
    (and may raise) but no handler reads it, so it is not stored. *)
Definition daily_entry (it : RawItem) : result ForecastDay :=
  txt <- item (dt_txt it) ;;
  date <- split_first txt ;;
  m <- item (item_main it) ;;
  tmax <- item (raw_temp_max m) ;;
  tmin <- item (raw_temp_min m) ;;
  hum <- item (raw_humidity m) ;;
  w <- item (item_wind it) ;;
  speed <- item (raw_speed w) ;;
  tags <- item (item_weather it) ;;
  tag <- index tags 0 ;;
  label <- item (tag_main tag) ;;
  Ok {| temp_max := Some (Num tmax);
        temp_min := Some (Num tmin);
        humidity := Some (Num hum);
        wind_speed := Some (Num speed);
        weather := Some label;
        rain_probability := Some (get (pop it) 0 * 100) |}.

(** [range(0, n, 8)] *)
Definition range_step8 (n : nat) : list nat :=
  map (fun j => 8 * j)%nat (seq 0 ((n + 7) / 8)).

(** The loop [for i in range(...): item = items[i]; daily_forecast.append(...)]. *)
Fixpoint collect (items : list RawItem) (indices : list nat)
    : result (list ForecastDay) :=
  match indices with
  | [] => Ok []
  | i :: rest =>
      it <- index items i ;;
      day <- daily_entry it ;;
      days <- collect items rest ;;
      Ok (day :: days)
  end.

(** The answer of the [except] branch. *)
Definition mock_weather : Weather :=
  {| success := false;
     current := {| temperature := Some (Num 28);
                   cur_humidity := Some (Num 65);
                   cur_wind_speed := Some (Num 3.5);
                   cur_weather := Some "Clear"%string |};
     forecast :=
       [ {| temp_max := Some (Num 30); temp_min := Some (Num 20);
            humidity := Some (Num 60);
            wind_speed := Some (Num 3.2); weather := Some "Clear"%string;
            rain_probability := Some 5 |};
         {| temp_max := Some (Num 29); temp_min := Some (Num 19);
            humidity := Some (Num 65);
            wind_speed := Some (Num 3.5); weather := Some "Clear"%string;
            rain_probability := Some 10 |};
         {| temp_max := Some (Num 27); temp_min := Some (Num 18);
            humidity := Some (Num 70);
            wind_speed := Some (Num 4.0); weather := Some "Clouds"%string;
            rain_probability := Some 30 |} ] |}.

(** [get_weather], given the outcome of the two requests: the decoded
    current-weather answer, and the decoded forecast answer with its
    optional [list] key; [Raise] stands for any failure of the request or
    of the decoding. *)
Definition get_weather (api_current : result RawCurrent)
    (api_forecast : result (option (list RawItem))) : Weather :=
  try_except
    (current_data <- api_current ;;
     forecast_data <- api_forecast ;;
     let items := get forecast_data [] in
     daily_forecast <- collect items (range_step8 (length items)) ;;
     m <- item (cur_main current_data) ;;
     temp <- item (raw_temp m) ;;
     hum <- item (raw_humidity m) ;;
     w <- item (cur_wind current_data) ;;
     speed <- item (raw_speed w) ;;
     tags <- item (cur_tags current_data) ;;
     tag <- index tags 0 ;;
     label <- item (tag_main tag) ;;
     description <- item (tag_description tag) ;;
     Ok {| success := true;
           current := {| temperature := Some (Num temp);
                         cur_humidity := Some (Num hum);
                         cur_wind_speed := Some (Num speed);
                         cur_weather := Some label |};
           forecast := firstn 7 daily_forecast |})
    mock_weather.

End MainWeather.

(** ** main_live_data.py: the command-line pipeline *)

Module LiveData.

(** The dictionary returned by [get_weather]. *)
Record Observation : Type := mkObservation {
  obs_temp_max : R;
  obs_temp_min : R;
  obs_humidity : R;
  obs_wind_speed : R;
  obs_latitude : R;
  obs_day_of_year : Z
}.

Record Outcome : Type := mkOutcome {
  out_et0 : R;
  out_ndvi : R;
  out_kc : R;
  smart_irrigation : R;
  out_savings : SavingsReport
}.

(** [run_irrigation_ai], from the fetched weather and NDVI on.  The three
    helpers it calls are those of [main.py]. *)
Definition run_irrigation_ai (weather : Observation) (ndvi : R)
    (traditional_amount : R) (growth_stage : string) : result Outcome :=
  let kc := Main.calculate_crop_coefficient ndvi growth_stage in
  et0 <- Main.calculate_et0 (obs_temp_max weather) (obs_temp_min weather)
           (obs_humidity weather) (obs_wind_speed weather)
           (obs_latitude weather) (obs_day_of_year weather) ;;
  let smart_irrigation := et0 * kc * 0.1 in
  savings <- Main.calculate_water_savings traditional_amount smart_irrigation ;;
  Ok {| out_et0 := et0;
        out_ndvi := ndvi;
        out_kc := kc;
        smart_irrigation := smart_irrigation;
        out_savings := savings |}.

End LiveData.

(** The sum of the [area_pct] of a list of zones. *)
Definition total_area (zs : list Zone) : Z :=
  fold_right Z.add 0%Z (map area_pct zs).

(** ** A concrete request

    The first demo farm, a successful fetch that carries current conditions
    but no forecast entry, on day 300. *)
Definition empty_window_request : IrrigationRequest :=
  {| lat := 35.8256;
     size_hectares := 2.0;
     tree_count := 400;
     ndvi_score := 0.45;
     fetched :=
       {| success := true;
          current := {| temperature := Some (Num 28);
                        cur_humidity := Some (Num 65);
                        cur_wind_speed := Some (Num 3.5);
                        cur_weather := Some "Clear"%string |};
          forecast := [] |};
     today := 300 |}.

(** A request at the equator with three calm, dry forecast days. *)
Definition calm_day : ForecastDay :=
  {| temp_max := Some (Num 30); temp_min := Some (Num 20);
     humidity := Some (Num 60);
     wind_speed := Some (Num 0); weather := Some "Clear"%string;
     rain_probability := Some 0 |}.

Definition equator_request : IrrigationRequest :=
  {| lat := 0;
     size_hectares := 2.0;
     tree_count := 400;
     ndvi_score := 0.45;
     fetched :=
       {| success := true;
          current := {| temperature := Some (Num 28);
                        cur_humidity := Some (Num 65);
                        cur_wind_speed := Some (Num 3.5);
                        cur_weather := Some "Clear"%string |};
          forecast := [calm_day; calm_day; calm_day] |};
     today := 300 |}.

(** A reading that is a number above [bound], and a reading that is a
    number. *)
Definition above (bound : R) (v : obj) : Prop :=
  match v with
  | Num x => bound < x
  | PyNone => False
  end.

Definition is_number (v : obj) : Prop :=
  match v with
  | Num _ => True
  | PyNone => False
  end.

(** A forecast entry as the handler of [main_mock_data.py] reads it, a
    missing key replaced by its default: the two temperatures are numbers
    above -237.3, the humidity and the wind speed are numbers. *)
Definition usable_day (d : ForecastDay) : Prop :=
  above (-237.3) (get (temp_max d) (Num 28)) /\
  above (-237.3) (get (temp_min d) (Num 18)) /\
  is_number (get (humidity d) (Num 65)) /\
  is_number (get (wind_speed d) (Num 3.5)).

(** The four rows that tie the health label, the urgency and the crop
    coefficient of an answer to the band of the NDVI score. *)
Definition health_row (ndvi : R) (r : Recommendation) : Prop :=
  (ndvi < 0.3 /\ health_status r = "Critical - High Stress"%string /\
   urgency r = "urgent"%string /\ kc_coefficient r = 0.8) \/
  (0.3 <= ndvi < 0.5 /\ health_status r = "Moderate Stress"%string /\
   urgency r = "high"%string /\ kc_coefficient r = 0.75) \/
  (0.5 <= ndvi < 0.7 /\ health_status r = "Healthy"%string /\
   urgency r = "normal"%string /\ kc_coefficient r = 0.7) \/
  (0.7 <= ndvi /\ health_status r = "Excellent"%string /\
   urgency r = "low"%string /\ kc_coefficient r = 0.65).

(** A well-formed forecast item and current-weather answer, and a
    forecast item without any key. *)
Definition sample_item : MainWeather.RawItem :=
  {| MainWeather.dt_txt := Some "2025-10-25 12:00:00"%string;
     MainWeather.item_main :=
       Some {| MainWeather.raw_temp := Some 25;
               MainWeather.raw_temp_max := Some 30;
               MainWeather.raw_temp_min := Some 20;
               MainWeather.raw_humidity := Some 60 |};
     MainWeather.item_wind := Some {| MainWeather.raw_speed := Some 3.2 |};
     MainWeather.item_weather :=
       Some [ {| MainWeather.tag_main := Some "Clear"%string;
                 MainWeather.tag_description := Some "clear sky"%string |} ];
     MainWeather.pop := Some 0.2 |}.

Definition sample_current : MainWeather.RawCurrent :=
  {| MainWeather.cur_main :=
       Some {| MainWeather.raw_temp := Some 28;
               MainWeather.raw_temp_max := Some 30;
               MainWeather.raw_temp_min := Some 20;
               MainWeather.raw_humidity := Some 65 |};
     MainWeather.cur_wind := Some {| MainWeather.raw_speed := Some 3.5 |};
     MainWeather.cur_tags :=
       Some [ {| MainWeather.tag_main := Some "Clear"%string;
                 MainWeather.tag_description := Some "clear sky"%string |} ] |}.

Definition blank_item : MainWeather.RawItem :=
  {| MainWeather.dt_txt := None;
     MainWeather.item_main := None;
     MainWeather.item_wind := None;
     MainWeather.item_weather := None;
     MainWeather.pop := None |}.

(** The forecast entry built from [sample_item], and a request for a plot
    of area 0 whose weather is fetched from seventeen such items. *)
Definition sample_day : ForecastDay :=
  {| temp_max := Some (Num 30); temp_min := Some (Num 20);
     humidity := Some (Num 60); wind_speed := Some (Num 3.2);
     weather := Some "Clear"%string;
     rain_probability := Some (0.2 * 100) |}.

Definition fallow_request : IrrigationRequest :=
  {| lat := 35.8;
     size_hectares := 0;
     tree_count := 400;
     ndvi_score := 0.5;
     fetched := MainWeather.get_weather (Ok sample_current)
                  (Ok (Some (repeat sample_item 17)));
     today := 300 |}.

(** * Properties *)

(** ** The runtime model *)

Lemma ltb_lt (x y : R) : ltb x y = true <-> x < y.
Proof. unfold ltb; destruct (Rlt_dec x y); intuition congruence. Qed.

Lemma ltb_ge (x y : R) : ltb x y = false <-> y <= x.
Proof. unfold ltb; destruct (Rlt_dec x y); split; intros; try congruence; lra. Qed.

Lemma leb_le (x y : R) : leb x y = true <-> x <= y.
Proof. unfold leb; destruct (Rle_dec x y); intuition congruence. Qed.

Lemma leb_gt (x y : R) : leb x y = false <-> y < x.
Proof. unfold leb; destruct (Rle_dec x y); split; intros; try congruence; lra. Qed.

Lemma div_ok (x y : R) : y <> 0 -> div x y = Ok (x / y).
Proof. intros Hy; unfold div; destruct (Req_dec_T y 0); [contradiction | reflexivity]. Qed.

Lemma div_by_zero (x y : R) : y = 0 -> div x y = Raise ZeroDivisionError.
Proof. intros Hy; unfold div; destruct (Req_dec_T y 0); [reflexivity | contradiction]. Qed.

Lemma math_acos_ok (x : R) : -1 <= x <= 1 -> math_acos x = Ok (acos x).
Proof.
  intros [Hlo Hhi]; unfold math_acos.
  apply leb_le in Hlo; apply leb_le in Hhi; now rewrite Hlo, Hhi.
Qed.

Lemma math_acos_domain (x : R) : x < -1 \/ 1 < x -> math_acos x = Raise ValueError.
Proof.
  intros [H | H]; unfold math_acos.
  - apply leb_gt in H; now rewrite H.
  - apply leb_gt in H; rewrite H; now rewrite andb_false_r.
Qed.

Lemma math_log_ok (x : R) : 0 < x -> math_log x = Ok (ln x).
Proof. intros H; unfold math_log; apply ltb_lt in H; now rewrite H. Qed.

Lemma ln_pos (x : R) : 1 < x -> 0 < ln x.
Proof. intros H; rewrite <- ln_1; apply ln_increasing; lra. Qed.

Lemma ln_2_bounds : 1 / 2 < ln 2 < 1.
Proof.
  split.
  - pose proof ln_lt_2; lra.
  - apply Rlt_le_trans with (ln (exp 1)); [| rewrite ln_exp; lra].
    apply ln_increasing; [lra |].
    pose proof (exp_ineq1 1); lra.
Qed.

(** [math.exp] returns below the overflow threshold and raises above. *)
Lemma math_exp_ok (x : R) : x <= 512 -> math_exp x = Ok (exp x).
Proof.
  intros Hx; unfold math_exp.
  pose proof ln_2_bounds as [Hlo _].
  assert (H : ltb (1024 * ln 2) x = false) by (apply ltb_ge; lra).
  now rewrite H.
Qed.

Lemma math_exp_overflow (x : R) : 1024 <= x -> math_exp x = Raise OverflowError.
Proof.
  intros Hx; unfold math_exp.
  pose proof ln_2_bounds as [_ Hhi].
  assert (H : ltb (1024 * ln 2) x = true) by (apply ltb_lt; lra).
  now rewrite H.
Qed.

Lemma math_exp_outcome (x : R) :
  math_exp x = Ok (exp x) \/ math_exp x = Raise OverflowError.
Proof. unfold math_exp; destruct (ltb (1024 * ln 2) x); auto. Qed.

(** Between the two poles [math.tan] is the tangent. *)
Lemma math_tan_regular (x : R) :
  - (PI / 2) < x < PI / 2 -> math_tan x = tan x.
Proof.
  intros [Hlo Hhi]; unfold math_tan.
  destruct (Req_dec_T x (PI / 2)); [lra |].
  destruct (Req_dec_T x (- (PI / 2))); [lra | reflexivity].
Qed.

(** Rounding to the nearest integer when the fractional part is below one
    half, and rounding of a number that already has [ndigits] decimals. *)
Lemma round_half_even_down (x : R) (k : Z) :
  IZR k <= x < IZR k + 1 / 2 -> round_half_even x = k.
Proof.
  intros [Hlo Hhi]; unfold round_half_even.
  assert (Hk : Int_part x = k) by (symmetry; apply Int_part_spec; lra).
  rewrite Hk; destruct (Rlt_dec (x - IZR k) (1 / 2)); [reflexivity | lra].
Qed.

Lemma round_exact (k : Z) (ndigits : nat) :
  round (IZR k / 10 ^ ndigits) ndigits = IZR k / 10 ^ ndigits.
Proof.
  unfold round.
  assert (Hp : 10 ^ ndigits <> 0) by (apply pow_nonzero; lra).
  replace (IZR k / 10 ^ ndigits * 10 ^ ndigits) with (IZR k) by (field; exact Hp).
  rewrite (round_half_even_down (IZR k) k) by lra; reflexivity.
Qed.

Lemma third_of_baseline (x : R) :
  0 < x -> (x * 1.5 - x) / (x * 1.5) * 100 = 100 / 3.
Proof.
  intros Hx.
  replace (x * 1.5 - x) with (x * 1.5 * (1 / 3)) by lra.
  assert (Hy : x * 1.5 <> 0) by lra.
  generalize dependent (x * 1.5); intros y Hy; field; exact Hy.
Qed.

Lemma round_third : round (100 / 3) 2 = 33.33.
Proof.
  unfold round.
  rewrite (round_half_even_down (100 / 3 * 10 ^ 2) 3333) by (simpl; lra).
  simpl; lra.
Qed.

(** ** Rounding *)

Lemma round_half_even_near (x : R) :
  IZR (round_half_even x) - 1 / 2 <= x <= IZR (round_half_even x) + 1 / 2.
Proof.
  unfold round_half_even.
  destruct (base_Int_part x) as [Hlo Hhi].
  destruct (Rlt_dec (x - IZR (Int_part x)) (1 / 2)) as [Hd | Hd]; [lra |].
  destruct (Rlt_dec (1 / 2) (x - IZR (Int_part x))) as [He | He].
  - rewrite plus_IZR; lra.
  - destruct (Z.even (Int_part x)); [| rewrite plus_IZR]; lra.
Qed.

Lemma round_half_even_mono (x y : R) :
  x <= y -> (round_half_even x <= round_half_even y)%Z.
Proof.
  intros Hxy.
  destruct (Z.le_gt_cases (round_half_even x) (round_half_even y)) as [H | H];
    [exact H | exfalso].
  assert (Hz : (round_half_even y + 1 <= round_half_even x)%Z) by lia.
  apply IZR_le in Hz; rewrite plus_IZR in Hz.
  pose proof (round_half_even_near x) as [Hx _].
  pose proof (round_half_even_near y) as [_ Hy].
  assert (E : x = y) by lra.
  rewrite E in H; lia.
Qed.

Lemma round_mono (x y : R) (ndigits : nat) :
  x <= y -> round x ndigits <= round y ndigits.
Proof.
  intros Hxy; unfold round.
  assert (Hp : 0 < 10 ^ ndigits) by (apply pow_lt; lra).
  apply Rmult_le_compat_r; [left; apply Rinv_0_lt_compat; exact Hp |].
  apply IZR_le, round_half_even_mono; nra.
Qed.

Lemma round_zero (ndigits : nat) : round 0 ndigits = 0.
Proof.
  replace 0 with (IZR 0 / 10 ^ ndigits) at 1 by (unfold Rdiv; lra).
  rewrite round_exact; unfold Rdiv; lra.
Qed.

Lemma round_hundredths (k : Z) (v : R) : v = IZR k / 100 -> round v 2 = v.
Proof.
  intros ->.
  replace (IZR k / 100) with (IZR k / 10 ^ 2) by (simpl; lra).
  apply round_exact.
Qed.

Lemma round_thousandths (k : Z) (v : R) : v = IZR k / 1000 -> round v 3 = v.
Proof.
  intros ->.
  replace (IZR k / 1000) with (IZR k / 10 ^ 3) by (simpl; lra).
  apply round_exact.
Qed.

(** ** Water savings *)

Lemma zero_report_fields :
  water_saved_liters MockData.zero_report = 0 /\
  water_saved_cubic_meters MockData.zero_report = 0 /\
  percentage_saved MockData.zero_report = 0 /\
  cost_saved_tnd MockData.zero_report = 0 /\
  cost_saved_usd MockData.zero_report = 0.
Proof. cbn; repeat split; lra. Qed.

(** The guard of [main_mock_data.py]: a non-positive baseline or a negative
    smart volume yields the all-zero report, and nothing is raised. *)
Lemma mock_savings_guard (traditional smart : R) :
  traditional <= 0 \/ smart < 0 ->
  MockData.calculate_water_savings traditional smart = Ok MockData.zero_report.
Proof.
  intros H; unfold MockData.calculate_water_savings.
  destruct H as [H | H].
  - apply leb_le in H; now rewrite H.
  - apply ltb_lt in H; rewrite H; now rewrite orb_true_r.
Qed.

(** Past the guard the mock variant always answers. *)
Lemma mock_savings_returns (traditional smart : R) :
  returns (MockData.calculate_water_savings traditional smart).
Proof.
  unfold returns, MockData.calculate_water_savings.
  destruct (leb traditional 0) eqn:Ht; cbn [orb]; [eexists; reflexivity |].
  destruct (ltb smart 0); [eexists; reflexivity |].
  apply leb_gt in Ht.
  assert (Hpos : ltb 0 traditional = true) by (apply ltb_lt; exact Ht).
  rewrite Hpos, div_ok by lra; cbn [bind]; eexists; reflexivity.
Qed.

(** C1 (code defect).  With a zero baseline the savings computation of
    [main.py] and of [savings_service.py] divides by the baseline and raises
    [ZeroDivisionError], where the claim (and the guarded
    [main_mock_data.py] copy, on the same input) gives the all-zero
    report. *)
Theorem savings_zero_baseline_unguarded :
  Main.calculate_water_savings 0 0 = Raise ZeroDivisionError /\
  SavingsService.calculate_savings 0 0 = Raise ZeroDivisionError /\
  MockData.calculate_water_savings 0 0 = Ok MockData.zero_report.
Proof.
  split; [| split].
  - unfold Main.calculate_water_savings; now rewrite div_by_zero.
  - unfold SavingsService.calculate_savings; now rewrite div_by_zero.
  - apply mock_savings_guard; left; lra.
Qed.

(** ** Crop coefficient *)

Lemma base_kc_values (stage : string) :
  lookup base_kc stage 0.65 = 0.50 \/
  lookup base_kc stage 0.65 = 0.65 \/
  lookup base_kc stage 0.65 = 0.60.
Proof.
  unfold base_kc; cbn [lookup].
  destruct (String.eqb stage "initial"); [now left |].
  destruct (String.eqb stage "mid"); [now right; left |].
  destruct (String.eqb stage "late"); [now right; right | now right; left].
Qed.

Lemma base_kc_unknown (stage : string) :
  stage <> "initial"%string -> stage <> "mid"%string -> stage <> "late"%string ->
  lookup base_kc stage 0.65 = 0.65.
Proof.
  intros Hi Hm Hl; unfold base_kc; cbn [lookup].
  apply String.eqb_neq in Hi, Hm, Hl; now rewrite Hi, Hm, Hl.
Qed.

Lemma adjustment_range (ndvi : R) : 0 <= adjustment ndvi <= 0.15.
Proof.
  unfold adjustment, ltb.
  destruct (Rlt_dec ndvi 0.3); [lra |].
  destruct (Rlt_dec ndvi 0.5); [lra |].
  destruct (Rlt_dec ndvi 0.7); lra.
Qed.

(** C4.  For every NDVI in [0, 1] and every growth-stage string the crop
    coefficient lies in [0.40, 0.85], in the clamped [main_mock_data.py]
    copy and in the unclamped [main.py] copy alike; a string that is none of
    the three known stages takes the base 0.65. *)
Theorem crop_coefficient_band (ndvi : R) (stage : string) :
  0 <= ndvi <= 1 ->
  0.40 <= MockData.calculate_crop_coefficient ndvi stage <= 0.85 /\
  0.40 <= Main.calculate_crop_coefficient ndvi stage <= 0.85 /\
  (stage <> "initial"%string -> stage <> "mid"%string -> stage <> "late"%string ->
   lookup base_kc stage 0.65 = 0.65).
Proof.
  intros _.
  pose proof (adjustment_range ndvi) as Ha.
  pose proof (base_kc_values stage) as Hb.
  split; [| split].
  - unfold MockData.calculate_crop_coefficient.
    split.
    + apply Rmin_glb; [| lra].
      apply Rle_trans with (2 := Rmax_r _ _); lra.
    + apply Rmin_r.
  - unfold Main.calculate_crop_coefficient.
    destruct Hb as [Hb | [Hb | Hb]]; rewrite Hb; lra.
  - apply base_kc_unknown.
Qed.

Lemma crop_coefficient_band_witness :
  0.40 <= MockData.calculate_crop_coefficient 0.45 "mid" <= 0.85 /\
  0.40 <= Main.calculate_crop_coefficient 0.45 "mid" <= 0.85 /\
  lookup base_kc "flowering" 0.65 = 0.65.
Proof.
  destruct (crop_coefficient_band 0.45 "mid" ltac:(lra)) as [Hm [Hn _]].
  destruct (crop_coefficient_band 0.45 "flowering" ltac:(lra)) as [_ [_ Hu]].
  split; [exact Hm | split; [exact Hn |]].
  apply Hu; discriminate.
Defined.

(** ** Net irrigation depth *)

Lemma net_irrigation_same (total_et0 kc rain : R) :
  MockData.net_irrigation_mm total_et0 kc rain = Main.net_irrigation_mm total_et0 kc rain.
Proof. unfold MockData.net_irrigation_mm, Main.net_irrigation_mm; f_equal; lra. Qed.

Lemma net_irrigation_mono_et0 (t1 t2 kc rain : R) :
  0 <= t1 <= t2 -> 0 <= rain ->
  Main.net_irrigation_mm t1 kc rain <= Main.net_irrigation_mm t2 kc rain.
Proof.
  intros Ht Hr; unfold Main.net_irrigation_mm; cbv zeta.
  destruct (Rle_dec 0 kc) as [Hk | Hk].
  - apply Rle_max_compat_l. nra.
  - rewrite (Rmax_left 0 (t1 * kc - rain)) by nra.
    apply Rmax_l.
Qed.

Lemma net_irrigation_anti_rain (t kc r1 r2 : R) :
  r1 <= r2 ->
  Main.net_irrigation_mm t kc r2 <= Main.net_irrigation_mm t kc r1.
Proof.
  intros Hr; unfold Main.net_irrigation_mm; cbv zeta.
  apply Rle_max_compat_l; lra.
Qed.

(** C7.  The net irrigation depth [max(0, total_et0 * kc - expected_rain)]
    is never negative, does not decrease when [total_et0] grows and does not
    increase when [expected_rain] grows, for every [kc]; the two handlers
    compute the same depth. *)
Theorem net_irrigation_monotone (t1 t2 kc r1 r2 : R) :
  0 <= t1 <= t2 -> 0 <= r1 <= r2 ->
  0 <= Main.net_irrigation_mm t1 kc r1 /\
  Main.net_irrigation_mm t1 kc r1 <= Main.net_irrigation_mm t2 kc r1 /\
  Main.net_irrigation_mm t1 kc r2 <= Main.net_irrigation_mm t1 kc r1 /\
  0 <= MockData.net_irrigation_mm t1 kc r1 /\
  MockData.net_irrigation_mm t1 kc r1 <= MockData.net_irrigation_mm t2 kc r1 /\
  MockData.net_irrigation_mm t1 kc r2 <= MockData.net_irrigation_mm t1 kc r1.
Proof.
  intros Ht Hr.
  rewrite !net_irrigation_same.
  assert (H0 : 0 <= Main.net_irrigation_mm t1 kc r1) by apply Rmax_l.
  assert (H1 := net_irrigation_mono_et0 t1 t2 kc r1 Ht (proj1 Hr)).
  assert (H2 := net_irrigation_anti_rain t1 kc r1 r2 (proj2 Hr)).
  repeat split; assumption.
Qed.

Lemma net_irrigation_monotone_witness :
  0 <= Main.net_irrigation_mm 10 0.75 0 /\
  Main.net_irrigation_mm 10 0.75 0 <= Main.net_irrigation_mm 12 0.75 0 /\
  Main.net_irrigation_mm 10 0.75 2 <= Main.net_irrigation_mm 10 0.75 0 /\
  0 <= MockData.net_irrigation_mm 10 0.75 0 /\
  MockData.net_irrigation_mm 10 0.75 0 <= MockData.net_irrigation_mm 12 0.75 0 /\
  MockData.net_irrigation_mm 10 0.75 2 <= MockData.net_irrigation_mm 10 0.75 0.
Proof.
  apply (net_irrigation_monotone 10 12 0.75 0 2); lra.
Defined.

(** ** Volumetric conversion *)

Lemma liters_per_tree_same (m3 : R) (n : Z) :
  MockData.liters_per_tree m3 n = Main.liters_per_tree m3 n.
Proof.
  unfold MockData.liters_per_tree, Main.liters_per_tree; cbv zeta.
  replace (m3 * 1000.0) with (m3 * 1000) by lra.
  replace 0.0 with 0 by lra; reflexivity.
Qed.

Lemma liters_per_tree_planted (m3 : R) (n : Z) :
  (0 < n)%Z -> Main.liters_per_tree m3 n = Ok (m3 * 1000 / IZR n).
Proof.
  intros Hn; unfold Main.liters_per_tree; cbv zeta.
  assert (Hb : (0 <? n)%Z = true) by (apply Z.ltb_lt; exact Hn).
  rewrite Hb; apply div_ok.
  apply IZR_lt in Hn; lra.
Qed.

Lemma liters_per_tree_unplanted (m3 : R) (n : Z) :
  (n <= 0)%Z -> Main.liters_per_tree m3 n = Ok 0.
Proof.
  intros Hn; unfold Main.liters_per_tree; cbv zeta.
  assert (Hb : (0 <? n)%Z = false) by (apply Z.ltb_ge; exact Hn).
  now rewrite Hb.
Qed.

Lemma hours_per_tree_same (l : R) :
  MockData.hours_per_tree l = Main.hours_per_tree l.
Proof.
  unfold MockData.hours_per_tree, Main.hours_per_tree.
  destruct (ltb 0 l); lra.
Qed.

(** C8.  The volumetric conversion of [calculate_irrigation], in both
    handlers: [irrigation_m3 = (net_mm / 1000) * size_hectares * 10000]
    (for a non-negative area in [main_mock_data.py], which floors the area at
    zero), [liters_per_tree = irrigation_m3 * 1000 / tree_count] for a
    positive tree count and [0] otherwise, [hours_per_tree =
    liters_per_tree / 4] for a positive amount and [0] otherwise; with 2.0
    hectares, 400 trees and 5.0 mm this is 100 m3, 250 liters per tree and
    62.5 hours per tree. *)
Theorem volumetric_conversion (net_mm area : R) (n : Z) (l : R) :
  0 <= area ->
  (Main.irrigation_m3 net_mm area = net_mm / 1000 * (area * 10000) /\
   MockData.irrigation_m3 net_mm area = net_mm / 1000 * (area * 10000)) /\
  (forall m3,
     ((0 < n)%Z -> Main.liters_per_tree m3 n = Ok (m3 * 1000 / IZR n) /\
                   MockData.liters_per_tree m3 n = Ok (m3 * 1000 / IZR n)) /\
     ((n <= 0)%Z -> Main.liters_per_tree m3 n = Ok 0 /\
                    MockData.liters_per_tree m3 n = Ok 0)) /\
  ((0 < l -> Main.hours_per_tree l = l / 4 /\ MockData.hours_per_tree l = l / 4) /\
   (l <= 0 -> Main.hours_per_tree l = 0 /\ MockData.hours_per_tree l = 0)) /\
  (Main.irrigation_m3 5.0 2.0 = 100 /\
   Main.liters_per_tree 100 400 = Ok 250 /\
   Main.hours_per_tree 250 = 62.5) /\
  (MockData.irrigation_m3 5.0 2.0 = 100 /\
   MockData.liters_per_tree 100 400 = Ok 250 /\
   MockData.hours_per_tree 250 = 62.5).
Proof.
  intros Harea.
  assert (Hh : forall x, 0 < x -> Main.hours_per_tree x = x / 4).
  { intros x Hx; unfold Main.hours_per_tree.
    apply ltb_lt in Hx; now rewrite Hx. }
  assert (H250 : Main.liters_per_tree 100 400 = Ok 250).
  { rewrite liters_per_tree_planted by lia; f_equal; lra. }
  split; [| split; [| split; [| split]]].
  - split.
    + unfold Main.irrigation_m3; reflexivity.
    + unfold MockData.irrigation_m3; cbv zeta.
      rewrite Rmax_right by lra; lra.
  - intros m3; split; intros Hn; rewrite liters_per_tree_same.
    + split; apply liters_per_tree_planted; exact Hn.
    + split; apply liters_per_tree_unplanted; exact Hn.
  - split; intros Hl; rewrite hours_per_tree_same.
    + split; apply Hh; exact Hl.
    + assert (Hz : Main.hours_per_tree l = 0).
      { unfold Main.hours_per_tree.
        assert (Hb : ltb 0 l = false) by (apply ltb_ge; exact Hl).
        now rewrite Hb. }
      split; exact Hz.
  - split; [| split].
    + unfold Main.irrigation_m3; lra.
    + exact H250.
    + rewrite Hh by lra; lra.
  - split; [| split].
    + unfold MockData.irrigation_m3; cbv zeta.
      rewrite Rmax_right by lra; lra.
    + rewrite liters_per_tree_same; exact H250.
    + rewrite hours_per_tree_same, Hh by lra; lra.
Qed.

Lemma volumetric_conversion_witness :
  0 <= 2.0 /\
  Main.irrigation_m3 5.0 2.0 = 5.0 / 1000 * (2.0 * 10000) /\
  MockData.irrigation_m3 5.0 2.0 = 5.0 / 1000 * (2.0 * 10000) /\
  Main.liters_per_tree 100 400 = Ok (100 * 1000 / IZR 400) /\
  MockData.liters_per_tree 100 400 = Ok (100 * 1000 / IZR 400) /\
  Main.hours_per_tree 250 = 250 / 4 /\
  MockData.hours_per_tree 250 = 250 / 4.
Proof.
  assert (Harea : 0 <= 2.0) by lra.
  destruct (volumetric_conversion 5.0 2.0 400 250 Harea)
    as [[Hv1 Hv2] [Hl [[Hh _] _]]].
  destruct (Hl 100) as [Hpos _].
  destruct (Hpos ltac:(lia)) as [Hl1 Hl2].
  destruct (Hh ltac:(lra)) as [Hh1 Hh2].
  repeat split; assumption.
Defined.

(** ** The fixed 1.5 baseline *)

Lemma main_savings_of_baseline (x : R) :
  0 < x ->
  Main.calculate_water_savings (Main.traditional_m3 x) x =
  Ok {| water_saved_liters := round (x / 2 * 1000) 2;
        water_saved_cubic_meters := round (x / 2) 2;
        percentage_saved := 33.33;
        cost_saved_tnd := round (x / 2 * 0.5) 2;
        cost_saved_usd := round (x / 2 * 0.5 * 0.32) 2 |}.
Proof.
  intros Hx; unfold Main.calculate_water_savings, Main.traditional_m3.
  rewrite div_ok by lra; cbn [bind].
  rewrite third_of_baseline by exact Hx.
  rewrite round_third.
  replace (x * 1.5 - x) with (x / 2) by lra.
  replace (x / 2 * 1000 * 0.0005) with (x / 2 * 0.5) by lra.
  reflexivity.
Qed.

Lemma mock_savings_of_baseline (x : R) :
  0 < x ->
  MockData.calculate_water_savings (MockData.traditional_m3 x) x =
  Ok {| water_saved_liters := round (x / 2 * 1000) 2;
        water_saved_cubic_meters := round (x / 2) 2;
        percentage_saved := 33.33;
        cost_saved_tnd := round (x / 2 * 0.5) 2;
        cost_saved_usd := round (x / 2 * 0.5 * 0.32) 2 |}.
Proof.
  intros Hx.
  unfold MockData.calculate_water_savings, MockData.traditional_m3,
    MockData.water_saved_m3.
  assert (H1 : leb (x * 1.5) 0 = false) by (apply leb_gt; lra).
  assert (H2 : ltb x 0 = false) by (apply ltb_ge; lra).
  assert (H3 : ltb 0 (x * 1.5) = true) by (apply ltb_lt; lra).
  rewrite H1, H2, H3; cbn [orb].
  rewrite Rmax_right by lra.
  rewrite div_ok by lra; cbn [bind].
  replace 100.0 with 100 by lra.
  rewrite third_of_baseline by exact Hx.
  rewrite round_third.
  replace (x * 1.5 - x) with (x / 2) by lra.
  replace (x / 2 * 1000.0) with (x / 2 * 1000) by lra.
  reflexivity.
Qed.

(** ** Cost per volume *)

(** Past the guard of [main_mock_data.py] the three copies compute the same
    report over the reals. *)
Lemma main_savings_is_service (traditional smart : R) :
  SavingsService.calculate_savings traditional smart =
  Main.calculate_water_savings traditional smart.
Proof. reflexivity. Qed.

Lemma mock_savings_past_guard (traditional smart : R) :
  0 < traditional -> 0 <= smart ->
  MockData.calculate_water_savings traditional smart =
  Ok {| water_saved_liters := round (Rmax 0 (traditional - smart) * 1000) 2;
        water_saved_cubic_meters := round (Rmax 0 (traditional - smart)) 2;
        percentage_saved :=
          round (Rmax 0 (traditional - smart) / traditional * 100) 2;
        cost_saved_tnd := round (Rmax 0 (traditional - smart) * 0.5) 2;
        cost_saved_usd := round (Rmax 0 (traditional - smart) * 0.5 * 0.32) 2 |}.
Proof.
  intros Ht Hs.
  unfold MockData.calculate_water_savings, MockData.water_saved_m3.
  assert (H1 : leb traditional 0 = false) by (apply leb_gt; lra).
  assert (H2 : ltb smart 0 = false) by (apply ltb_ge; lra).
  assert (H3 : ltb 0 traditional = true) by (apply ltb_lt; lra).
  rewrite H1, H2, H3; cbn [orb].
  rewrite div_ok by lra; cbn [bind].
  replace 0.0 with 0 by lra.
  replace 1000.0 with 1000 by lra.
  replace 100.0 with 100 by lra.
  reflexivity.
Qed.

Lemma main_savings_is_mock (traditional smart : R) :
  0 < traditional -> 0 <= smart <= traditional ->
  Main.calculate_water_savings traditional smart =
  MockData.calculate_water_savings traditional smart.
Proof.
  intros Ht [Hs0 Hs1].
  rewrite mock_savings_past_guard by lra.
  rewrite Rmax_right by lra.
  unfold Main.calculate_water_savings.
  rewrite div_ok by lra; cbn [bind].
  replace ((traditional - smart) * 1000 * 0.0005)
    with ((traditional - smart) * 0.5) by lra.
  reflexivity.
Qed.


(** On the saved volumes 0.01, 0.02, ..., 20.00 (against a smart volume of
    0) the binary64 reports of the two copies are never more than a cent
    apart, in either currency. *)
Lemma cost_reports_close_on_grid :
  Binary64.on_hundredths
    (fun s => Binary64.cost_reports_close s 0%float) 2000 1 = true.
Proof. vm_compute; reflexivity. Qed.



(** ** Elementary bounds on the circular functions *)

Lemma PI_bounds : 3 < PI <= 4.
Proof. split; [pose proof PI2_3_2; lra | exact PI_4]. Qed.

Lemma sin_cubic_lower (a : R) : 0 <= a <= 4 -> a - a ^ 3 / 6 <= sin a.
Proof.
  intros [Ha0 Ha4].
  destruct (pre_sin_bound a 0 Ha0 Ha4) as [Hlo _].
  unfold sin_approx, sin_term in Hlo; simpl in Hlo.
  lra.
Qed.

Lemma cos_quadratic_lower (a : R) : -2 <= a <= 2 -> 1 - a ^ 2 / 2 <= cos a.
Proof.
  intros [Ha0 Ha2].
  destruct (pre_cos_bound a 0 Ha0 Ha2) as [Hlo _].
  unfold cos_approx, cos_term in Hlo; simpl in Hlo.
  lra.
Qed.

Lemma tan_ge_sin (x : R) : 0 <= x < 3 / 2 -> sin x <= tan x.
Proof.
  intros [H0 H1].
  pose proof PI_bounds as [Hpi _].
  assert (Hc : 0 < cos x) by (apply cos_gt_0; lra).
  assert (Hc1 : cos x <= 1) by apply COS_bound.
  assert (Hs : 0 <= sin x) by (apply sin_ge_0; lra).
  unfold tan.
  apply Rmult_le_reg_r with (cos x); [exact Hc |].
  unfold Rdiv; rewrite Rmult_assoc, Rinv_l by lra.
  nra.
Qed.

Lemma tan_near_pole : 40 < tan (radians 89).
Proof.
  pose proof PI_bounds as [Hpi3 Hpi4].
  unfold radians.
  replace (89 * PI / 180) with (PI / 2 - PI / 180) by lra.
  unfold tan; rewrite sin_shift, cos_shift.
  set (y := PI / 180).
  assert (Hy : 0 < y <= 1 / 45) by (unfold y; lra).
  assert (Hs0 : 0 < sin y) by (apply sin_gt_0; lra).
  assert (Hs1 : sin y < y) by (apply sin_lt_x; lra).
  assert (Hc : 1 - y ^ 2 / 2 <= cos y) by (apply cos_quadratic_lower; lra).
  apply Rmult_lt_reg_r with (sin y); [exact Hs0 |].
  unfold Rdiv; rewrite Rmult_assoc, Rinv_l by lra.
  nra.
Qed.

Lemma declination_solstice : 0.37 <= solar_declination 172 <= 0.409.
Proof.
  pose proof PI_bounds as [Hpi3 Hpi4].
  unfold solar_declination.
  set (theta := 2 * PI / 365 * 172 - 1.39).
  assert (Hs : sin theta = cos (PI / 2 - theta)) by (symmetry; apply cos_shift).
  assert (Hr : -0.38 <= PI / 2 - theta <= 0.07) by (unfold theta; lra).
  assert (Hc : 1 - (PI / 2 - theta) ^ 2 / 2 <= cos (PI / 2 - theta))
    by (apply cos_quadratic_lower; lra).
  assert (Hub : sin theta <= 1) by apply SIN_bound.
  rewrite Hs in *.
  split; nra.
Qed.

Lemma tan_declination_solstice : 0.3 <= tan (solar_declination 172).
Proof.
  pose proof declination_solstice as [Hlo Hhi].
  set (d := solar_declination 172) in *.
  apply Rle_trans with (sin d); [| apply tan_ge_sin; lra].
  apply Rle_trans with (d - d ^ 3 / 6); [| apply sin_cubic_lower; lra].
  nra.
Qed.

(** The declination stays within 0.409 radians of zero, away from the
    poles of the tangent. *)
Lemma declination_range (day_of_year : Z) :
  -0.409 <= solar_declination day_of_year <= 0.409.
Proof.
  unfold solar_declination.
  pose proof (SIN_bound (2 * PI / 365 * IZR day_of_year - 1.39)) as [Hlo Hhi].
  lra.
Qed.

Lemma math_tan_declination (day_of_year : Z) :
  math_tan (solar_declination day_of_year) = tan (solar_declination day_of_year).
Proof.
  pose proof PI_bounds as [Hpi _].
  pose proof (declination_range day_of_year).
  apply math_tan_regular; lra.
Qed.

(** The argument of the arc-cosine, for a latitude strictly between the
    poles. *)
Lemma sunset_arg_regular (latitude : R) (day_of_year : Z) :
  -90 < latitude < 90 ->
  sunset_arg latitude day_of_year =
  - tan (radians latitude) * tan (solar_declination day_of_year).
Proof.
  intros Hl; unfold sunset_arg.
  pose proof PI_bounds as [Hpi _].
  rewrite math_tan_declination, math_tan_regular; [reflexivity |].
  unfold radians; split; nra.
Qed.

Lemma sunset_arg_polar_summer : sunset_arg 89 172 < -1.
Proof.
  rewrite sunset_arg_regular by lra.
  pose proof tan_near_pole; pose proof tan_declination_solstice.
  nra.
Qed.

(** ** The arc-cosine argument *)

Lemma mock_acos_arg_range (latitude : R) (day_of_year : Z) :
  -1 <= MockData.acos_arg latitude day_of_year <= 1.
Proof.
  unfold MockData.acos_arg.
  replace (-1.0) with (-1) by lra; replace 1.0 with 1 by lra.
  split; [apply Rmax_l |].
  apply Rmax_lub; [lra | apply Rmin_l].
Qed.

Lemma mock_acos_never_raises (latitude : R) (day_of_year : Z) :
  returns (math_acos (MockData.acos_arg latitude day_of_year)).
Proof.
  eexists; apply math_acos_ok, mock_acos_arg_range.
Qed.

Lemma main_et0_polar_summer (temp_max temp_min humidity wind_speed : R) :
  Main.calculate_et0 temp_max temp_min humidity wind_speed 89 172
  = Raise ValueError.
Proof.
  unfold Main.calculate_et0; cbn [num bind]; cbv zeta.
  rewrite math_acos_domain by (left; exact sunset_arg_polar_summer).
  reflexivity.
Qed.

(** C2 (code defect).  At latitude 89 on day 172 the product
    [-tan(lat) * tan(declination)] is below [-1].  [main.py] and
    [et0_service.py] hand it to [math.acos] unclamped, so their ET0
    computation raises the math-domain [ValueError] whatever the other
    inputs are; [main_mock_data.py] clamps the same argument into
    [-1, 1]. *)
Theorem unclamped_acos_domain_error
    (temp_max temp_min humidity wind_speed : R) :
  sunset_arg 89 172 < -1 /\
  Main.calculate_et0 temp_max temp_min humidity wind_speed 89 172
    = Raise ValueError /\
  Et0Service.calculate_et0 temp_max temp_min humidity wind_speed 89 172
    = Raise ValueError /\
  -1 <= MockData.acos_arg 89 172 <= 1.
Proof.
  assert (Hm : Main.calculate_et0 temp_max temp_min humidity wind_speed 89 172
               = Raise ValueError) by apply main_et0_polar_summer.
  split; [exact sunset_arg_polar_summer | split; [exact Hm | split]].
  - unfold Et0Service.calculate_et0; now rewrite Hm.
  - apply mock_acos_arg_range.
Qed.

(** ** Wind speed at two metres *)

Lemma main_u2_value (wind_speed : R) :
  Main.u2 wind_speed = Ok (wind_speed * (4.87 / ln (67.8 * 10 - 5.42))).
Proof.
  unfold Main.u2.
  rewrite math_log_ok by lra; cbn [bind].
  rewrite div_ok; [reflexivity |].
  apply Rgt_not_eq, ln_pos; lra.
Qed.

Lemma mock_u2_value (wind_speed : R) :
  MockData.u2 wind_speed = Ok (wind_speed * (4.87 / ln (67.8 * 10 + 5.42))).
Proof.
  unfold MockData.u2; cbv zeta.
  replace (67.8 * 10.0 + 5.42) with (67.8 * 10 + 5.42) by lra.
  assert (Hpos : 0 < ln (67.8 * 10 + 5.42)) by (apply ln_pos; lra).
  rewrite math_log_ok by lra; cbn [bind].
  assert (Hb : ltb 0 (ln (67.8 * 10 + 5.42)) = true) by (apply ltb_lt; exact Hpos).
  rewrite Hb, div_ok by lra; reflexivity.
Qed.

Lemma wind_factor_gap :
  4.87 / ln (67.8 * 10 + 5.42) < 4.87 / ln (67.8 * 10 - 5.42).
Proof.
  assert (H1 : 0 < ln (67.8 * 10 - 5.42)) by (apply ln_pos; lra).
  assert (H2 : ln (67.8 * 10 - 5.42) < ln (67.8 * 10 + 5.42))
    by (apply ln_increasing; lra).
  unfold Rdiv; apply Rmult_lt_compat_l; [lra |].
  apply Rinv_lt_contravar; [nra | exact H2].
Qed.

(** C6 (code defect).  [main.py] (and through it [et0_service.py]) adjusts
    the wind speed with [ln(67.8 * 10 - 5.42)], as the claim says;
    [main_mock_data.py] uses [ln(67.8 * 10 + 5.42)] and, for the wind speed
    3.2, obtains a different [u2]. *)
Theorem wind_adjustment_sign :
  Main.u2 3.2 = Ok (3.2 * (4.87 / ln (67.8 * 10 - 5.42))) /\
  MockData.u2 3.2 = Ok (3.2 * (4.87 / ln (67.8 * 10 + 5.42))) /\
  MockData.u2 3.2 <> Ok (3.2 * (4.87 / ln (67.8 * 10 - 5.42))).
Proof.
  split; [apply main_u2_value | split; [apply mock_u2_value |]].
  rewrite mock_u2_value; intros E; injection E as E.
  pose proof wind_factor_gap; nra.
Qed.

(** ** ET0 *)

Lemma round_nonneg (x : R) (ndigits : nat) : 0 <= x -> 0 <= round x ndigits.
Proof.
  intros Hx; unfold round.
  assert (Hp : 0 < 10 ^ ndigits) by (apply pow_lt; lra).
  set (y := x * 10 ^ ndigits).
  assert (Hy : 0 <= y) by (unfold y; nra).
  assert (Hn : (0 <= Int_part y)%Z).
  { destruct (base_Int_part y) as [_ Hlo].
    assert (Hlt : IZR (-1) < IZR (Int_part y)) by lra.
    apply lt_IZR in Hlt; lia. }
  assert (Hr : (0 <= round_half_even y)%Z).
  { unfold round_half_even.
    destruct (Rlt_dec _ _); [exact Hn |].
    destruct (Rlt_dec _ _); [lia |].
    destruct (Z.even _); lia. }
  apply IZR_le in Hr.
  apply Rmult_le_pos; [exact Hr | left; apply Rinv_0_lt_compat; exact Hp].
Qed.

(** The Tetens exponent [17.27 * T / (T + 237.3)]: above the pole -237.3 it
    is below 17.27, far from the overflow of [math.exp]; on the five
    degrees below the pole it is beyond it. *)
Lemma tetens_bound (t : R) : -237.3 < t -> 17.27 * t / (t + 237.3) <= 512.
Proof.
  intros Ht.
  assert (Hd : 0 < t + 237.3) by lra.
  apply Rmult_le_reg_r with (t + 237.3); [exact Hd |].
  unfold Rdiv; rewrite Rmult_assoc, Rinv_l by lra.
  lra.
Qed.

Lemma tetens_overflow (t : R) :
  -241 <= t < -237.3 -> 1024 <= 17.27 * t / (t + 237.3).
Proof.
  intros [Hlo Hhi].
  assert (Hd : 0 < - (t + 237.3)) by lra.
  replace (17.27 * t / (t + 237.3)) with (17.27 * - t / - (t + 237.3))
    by (field; lra).
  apply Rmult_le_reg_r with (- (t + 237.3)); [exact Hd |].
  unfold Rdiv; rewrite Rmult_assoc, Rinv_l by lra.
  lra.
Qed.

(** The Tetens term of one temperature, as both copies evaluate it. *)
Lemma tetens_term_ok (t : R) :
  -237.3 < t ->
  (q <- div (17.27 * t) (t + 237.3) ;; math_exp q)
  = Ok (exp (17.27 * t / (t + 237.3))).
Proof.
  intros Ht.
  rewrite div_ok by lra; cbn [bind].
  apply math_exp_ok, tetens_bound; exact Ht.
Qed.

Lemma tetens_term_pole (t : R) :
  t = -237.3 ->
  (q <- div (17.27 * t) (t + 237.3) ;; math_exp q) = Raise ZeroDivisionError.
Proof. intros Ht; rewrite div_by_zero by lra; reflexivity. Qed.

Lemma tetens_term_overflow (t : R) :
  -241 <= t < -237.3 ->
  (q <- div (17.27 * t) (t + 237.3) ;; math_exp q) = Raise OverflowError.
Proof.
  intros Ht.
  rewrite div_ok by lra; cbn [bind].
  apply math_exp_overflow, tetens_overflow; exact Ht.
Qed.

Lemma mock_et0_returns
    (temp_max temp_min humidity wind_speed latitude : R) (day_of_year : Z) :
  -237.3 < temp_max -> -237.3 < temp_min ->
  exists v,
    MockData.calculate_et0 temp_max temp_min humidity wind_speed latitude day_of_year
      = Ok v /\ 0 <= v.
Proof.
  intros Hmax Hmin.
  unfold MockData.calculate_et0; cbn [num bind]; cbv zeta.
  rewrite math_acos_ok by apply mock_acos_arg_range; cbn [bind].
  rewrite (div_ok _ (temp_max + 237.3)) by lra; cbn [bind].
  rewrite math_exp_ok by (apply tetens_bound; exact Hmax); cbn [bind].
  rewrite (div_ok _ (temp_min + 237.3)) by lra; cbn [bind].
  rewrite math_exp_ok by (apply tetens_bound; exact Hmin); cbn [bind].
  rewrite mock_u2_value; cbn [bind].
  eexists; split; [reflexivity |].
  apply Rle_trans with 0.0; [lra | apply Rmax_l].
Qed.

Lemma main_et0_returns
    (temp_max temp_min humidity wind_speed latitude : R) (day_of_year : Z) :
  0 <= wind_speed ->
  -237.3 < temp_max -> -237.3 < temp_min ->
  -1 <= sunset_arg latitude day_of_year <= 1 ->
  exists v,
    Main.calculate_et0 temp_max temp_min humidity wind_speed latitude day_of_year
      = Ok v /\ 0 <= v.
Proof.
  intros Hw Hmax Hmin Harg.
  unfold Main.calculate_et0; cbn [num bind]; cbv zeta.
  rewrite math_acos_ok by exact Harg; cbn [bind].
  rewrite (div_ok _ (temp_max + 237.3)) by lra; cbn [bind].
  rewrite math_exp_ok by (apply tetens_bound; exact Hmax); cbn [bind].
  rewrite (div_ok _ (temp_min + 237.3)) by lra; cbn [bind].
  rewrite math_exp_ok by (apply tetens_bound; exact Hmin); cbn [bind].
  rewrite main_u2_value; cbn [bind].
  assert (Hf : 0 < 4.87 / ln (67.8 * 10 - 5.42)).
  { apply Rdiv_lt_0_compat; [lra | apply ln_pos; lra]. }
  rewrite (div_ok _ ((temp_max + temp_min) / 2 + 273)) by lra.
  cbn [bind].
  rewrite div_ok by nra; cbn [bind].
  eexists; split; [reflexivity | apply Rmax_l].
Qed.

(** The product [-tan x * tan y] stays in [-1, 1] as long as
    [|x| + |y| <= PI / 2]: its two bounds are the signs of [cos (x + y)] and
    [cos (x - y)]. *)
Lemma tan_product_range (x y : R) :
  Rabs x + Rabs y <= PI / 2 -> Rabs x < PI / 2 -> Rabs y < PI / 2 ->
  -1 <= - tan x * tan y <= 1.
Proof.
  intros Hsum Hx Hy.
  assert (Hx' : - (PI / 2) < x < PI / 2) by (apply Rabs_def2 in Hx; lra).
  assert (Hy' : - (PI / 2) < y < PI / 2) by (apply Rabs_def2 in Hy; lra).
  assert (Hcx : 0 < cos x) by (apply cos_gt_0; lra).
  assert (Hcy : 0 < cos y) by (apply cos_gt_0; lra).
  pose proof (Rle_abs x); pose proof (Rle_abs y).
  pose proof (Rle_abs (- x)) as Hnx; rewrite Rabs_Ropp in Hnx.
  pose proof (Rle_abs (- y)) as Hny; rewrite Rabs_Ropp in Hny.
  assert (Hp : 0 <= cos (x + y)) by (apply cos_ge_0; lra).
  assert (Hm : 0 <= cos (x - y)) by (apply cos_ge_0; lra).
  rewrite cos_plus in Hp; rewrite cos_minus in Hm.
  assert (Hc : 0 < cos x * cos y) by (apply Rmult_lt_0_compat; assumption).
  assert (E : - tan x * tan y = - (sin x * sin y) / (cos x * cos y))
    by (unfold tan; field; split; lra).
  rewrite E; split.
  - apply Rmult_le_reg_r with (cos x * cos y); [exact Hc |].
    unfold Rdiv; rewrite Rmult_assoc, Rinv_l by lra; lra.
  - apply Rmult_le_reg_r with (cos x * cos y); [exact Hc |].
    unfold Rdiv; rewrite Rmult_assoc, Rinv_l by lra; lra.
Qed.

(** Between the parallels of 65 degrees (the declination never exceeds
    0.409 radians, about 23.4 degrees) the unclamped argument stays in
    range, on every day. *)
Lemma sunset_arg_in_range (latitude : R) (day_of_year : Z) :
  -65 <= latitude <= 65 -> -1 <= sunset_arg latitude day_of_year <= 1.
Proof.
  intros Hlat.
  pose proof PI_bounds as [Hpi _].
  pose proof (declination_range day_of_year) as Hd.
  rewrite sunset_arg_regular by lra.
  assert (Hx : Rabs (radians latitude) <= 65 * PI / 180).
  { unfold radians; apply Rabs_le; split; nra. }
  assert (Hy : Rabs (solar_declination day_of_year) <= 0.409)
    by (apply Rabs_le; lra).
  apply tan_product_range; lra.
Qed.

Lemma sunset_arg_temperate (latitude : R) (day_of_year : Z) :
  -45 <= latitude <= 45 -> -1 <= sunset_arg latitude day_of_year <= 1.
Proof. intros Hlat; apply sunset_arg_in_range; lra. Qed.




(** ** The forecast window *)

Lemma above_number (bound : R) (v : obj) :
  above bound v -> exists x, v = Num x /\ bound < x.
Proof. destruct v as [| x]; [contradiction | intros H; exists x; auto]. Qed.

Lemma is_number_number (v : obj) : is_number v -> exists x, v = Num x.
Proof. destruct v as [| x]; [contradiction | intros _; exists x; reflexivity]. Qed.

Lemma mock_et0_of_usable_day (lat : R) (d : ForecastDay) (day_of_year : Z) :
  usable_day d ->
  exists v,
    MockData.calculate_et0
      (get (temp_max d) (Num 28)) (get (temp_min d) (Num 18))
      (get (humidity d) (Num 65)) (get (wind_speed d) (Num 3.5))
      lat day_of_year = Ok v /\ 0 <= v.
Proof.
  intros (Hmax & Hmin & Hhum & Hwind).
  apply above_number in Hmax as (tmax & -> & Hmax).
  apply above_number in Hmin as (tmin & -> & Hmin).
  apply is_number_number in Hhum as (hum & ->).
  apply is_number_number in Hwind as (wind & ->).
  apply mock_et0_returns; assumption.
Qed.

Lemma mock_et0_loop_returns (lat : R) (forecast : list ForecastDay) :
  Forall usable_day forecast ->
  forall total_et0 day_of_year,
    returns (MockData.et0_loop lat forecast total_et0 day_of_year).
Proof.
  induction 1 as [| d rest Hd _ IH]; intros total_et0 day_of_year.
  - eexists; reflexivity.
  - cbn [MockData.et0_loop].
    destruct (mock_et0_of_usable_day lat d day_of_year Hd) as [v [Hv _]].
    rewrite Hv; cbn [bind]; apply IH.
Qed.

Lemma mock_liters_per_tree_returns (m3 : R) (n : Z) :
  returns (MockData.liters_per_tree m3 n).
Proof.
  rewrite liters_per_tree_same.
  destruct (Z.lt_ge_cases 0 n) as [Hn | Hn].
  - rewrite liters_per_tree_planted by exact Hn; eexists; reflexivity.
  - rewrite liters_per_tree_unplanted by exact Hn; eexists; reflexivity.
Qed.

(** Once the ET0 loop has returned, the handler of [main_mock_data.py]
    answers with a recommendation that reports the rounded loop total and
    the rounded rainfall estimate. *)
Lemma mock_calculate_on_after_loop (req : IrrigationRequest)
    (forecast : list ForecastDay) (total_et0 : R) :
  MockData.et0_loop (lat req) forecast 0.0 (today req) = Ok total_et0 ->
  exists r,
    MockData.calculate_on req forecast = Ok (Success r) /\
    total_et0_mm r = round total_et0 2 /\
    expected_rain_mm r = round (MockData.expected_rain forecast) 2.
Proof.
  intros Ht; unfold MockData.calculate_on; cbv zeta.
  rewrite Ht; cbn [bind].
  match goal with
  | |- context [MockData.liters_per_tree ?m ?n] =>
      destruct (mock_liters_per_tree_returns m n) as [l Hl]; rewrite Hl
  end; cbn [bind].
  match goal with
  | |- context [MockData.calculate_water_savings ?a ?b] =>
      destruct (mock_savings_returns a b) as [s Hs]; rewrite Hs
  end; cbn [bind].
  destruct (classify (ndvi_score req)) as [status urg].
  eexists; split; [reflexivity | split; reflexivity].
Qed.

(** The handler of [main_mock_data.py] answers with a recommendation on
    every window of usable days. *)
Lemma mock_calculate_on_succeeds (req : IrrigationRequest) (forecast : list ForecastDay) :
  Forall usable_day forecast ->
  exists r, MockData.calculate_on req forecast = Ok (Success r).
Proof.
  intros Hf.
  destruct (mock_et0_loop_returns (lat req) forecast Hf 0.0 (today req)) as [t Ht].
  destruct (mock_calculate_on_after_loop req forecast t Ht) as (r & Hr & _).
  exists r; exact Hr.
Qed.

(** [main.py] has no check either: on an empty window of a successful
    fetch every volume is zero and the unguarded savings computation divides
    by the zero baseline. *)
Lemma main_empty_window_divides_by_zero (req : IrrigationRequest) :
  success (fetched req) = true -> forecast (fetched req) = [] ->
  Main.calculate_irrigation req = Raise ZeroDivisionError.
Proof.
  intros Hs Hf; unfold Main.calculate_irrigation; cbv zeta.
  rewrite Hs, Hf; cbn [negb firstn Main.et0_loop bind].
  assert (Hz : forall kc size,
             Main.irrigation_m3
               (Main.net_irrigation_mm 0 kc (Main.expected_rain [])) size = 0).
  { intros kc size.
    unfold Main.irrigation_m3, Main.net_irrigation_mm, Main.expected_rain, py_sum.
    cbn [fold_left]; cbv zeta.
    replace (0 * kc - 0) with 0 by lra.
    rewrite Rmax_left by lra; lra. }
  rewrite Hz.
  assert (Hl : returns (Main.liters_per_tree 0 (tree_count req))).
  { rewrite <- liters_per_tree_same; apply mock_liters_per_tree_returns. }
  destruct Hl as [l Hl]; rewrite Hl; cbn [bind].
  unfold Main.calculate_water_savings, Main.traditional_m3.
  rewrite div_by_zero by lra; reflexivity.
Qed.

Lemma empty_window_request_answered :
  exists r, MockData.calculate_irrigation empty_window_request = Ok (Success r).
Proof.
  apply mock_calculate_on_succeeds.
  unfold MockData.window, MockData.fallback_day, empty_window_request.
  cbn [fetched forecast current firstn temperature cur_humidity cur_wind_speed get].
  constructor; [| constructor].
  unfold usable_day; cbn [temp_max temp_min humidity wind_speed get above is_number].
  repeat split; lra.
Qed.




(** * Further properties of the engine and of the routes around it *)

(** ** Crop coefficient: the ladder and the three copies *)

Lemma adjustment_bands (ndvi : R) :
  (ndvi < 0.3 /\ adjustment ndvi = 0.15) \/
  (0.3 <= ndvi < 0.5 /\ adjustment ndvi = 0.10) \/
  (0.5 <= ndvi < 0.7 /\ adjustment ndvi = 0.05) \/
  (0.7 <= ndvi /\ adjustment ndvi = 0.0).
Proof.
  unfold adjustment, ltb.
  destruct (Rlt_dec ndvi 0.3); [left; split; [lra | reflexivity] |].
  destruct (Rlt_dec ndvi 0.5); [right; left; split; [lra | reflexivity] |].
  destruct (Rlt_dec ndvi 0.7); [right; right; left; split; [lra | reflexivity] |].
  right; right; right; split; [lra | reflexivity].
Qed.

Lemma adjustment_antitone (n1 n2 : R) :
  n1 <= n2 -> adjustment n2 <= adjustment n1.
Proof.
  intros Hn.
  destruct (adjustment_bands n1) as [[H1 E1] | [[H1 E1] | [[H1 E1] | [H1 E1]]]];
  destruct (adjustment_bands n2) as [[H2 E2] | [[H2 E2] | [[H2 E2] | [H2 E2]]]];
  rewrite E1, E2; lra.
Qed.

Lemma kc_on_grid (ndvi : R) (stage : string) :
  exists k : Z,
    Main.calculate_crop_coefficient ndvi stage = IZR k / 100 /\
    (50 <= k <= 80)%Z.
Proof.
  unfold Main.calculate_crop_coefficient.
  destruct (base_kc_values stage) as [Hb | [Hb | Hb]]; rewrite Hb;
  destruct (adjustment_bands ndvi) as [[_ E] | [[_ E] | [[_ E] | [_ E]]]];
  rewrite E;
  first [ exists 50%Z; split; [lra | lia] | exists 55%Z; split; [lra | lia]
        | exists 60%Z; split; [lra | lia] | exists 65%Z; split; [lra | lia]
        | exists 70%Z; split; [lra | lia] | exists 75%Z; split; [lra | lia]
        | exists 80%Z; split; [lra | lia] ].
Qed.

Lemma mock_kc_is_main_kc (ndvi : R) (stage : string) :
  MockData.calculate_crop_coefficient ndvi stage =
  Main.calculate_crop_coefficient ndvi stage.
Proof.
  destruct (kc_on_grid ndvi stage) as [k [Hk Hr]].
  unfold MockData.calculate_crop_coefficient.
  fold (Main.calculate_crop_coefficient ndvi stage).
  destruct Hr as [Hr1 Hr2].
  apply IZR_le in Hr1, Hr2.
  rewrite Rmax_left by (rewrite Hk; lra).
  rewrite Rmin_left by (rewrite Hk; lra).
  reflexivity.
Qed.

(** X1.  Lower NDVI never lowers the crop coefficient: in all three copies
    the coefficient is non-increasing in the NDVI score, for every stage. *)
Theorem crop_coefficient_antitone (n1 n2 : R) (stage : string) :
  n1 <= n2 ->
  Main.calculate_crop_coefficient n2 stage <= Main.calculate_crop_coefficient n1 stage /\
  MockData.calculate_crop_coefficient n2 stage <= MockData.calculate_crop_coefficient n1 stage /\
  KcService.calculate_kc n2 stage <= KcService.calculate_kc n1 stage.
Proof.
  intros Hn.
  assert (Hm : Main.calculate_crop_coefficient n2 stage
               <= Main.calculate_crop_coefficient n1 stage).
  { unfold Main.calculate_crop_coefficient.
    pose proof (adjustment_antitone n1 n2 Hn); lra. }
  split; [exact Hm | split].
  - rewrite !mock_kc_is_main_kc; exact Hm.
  - unfold KcService.calculate_kc; cbv zeta.
    apply round_mono; exact Hm.
Qed.

Lemma crop_coefficient_antitone_witness :
  Main.calculate_crop_coefficient 0.6 "late" <= Main.calculate_crop_coefficient 0.2 "late" /\
  MockData.calculate_crop_coefficient 0.6 "late" <= MockData.calculate_crop_coefficient 0.2 "late" /\
  KcService.calculate_kc 0.6 "late" <= KcService.calculate_kc 0.2 "late".
Proof.
  apply (crop_coefficient_antitone 0.2 0.6 "late"); lra.
Defined.

(** X2.  On binary64 numbers, for every NDVI score (NaN and the
    infinities included) and every stage string: the clamp of
    [main_mock_data.py] never changes the value that [main.py] returns;
    [round(kc, 2)] of [kc_service.py] returns the same number as [main.py]
    except where the sum is [0.65 + 0.05 = 0.7000000000000001], which it
    turns into [0.7]; and that case occurs, at NDVI 0.6 in the mid stage. *)
Theorem crop_coefficient_copies_binary64 (ndvi : float) (stage : string) :
  Binary64.MockData.calculate_crop_coefficient ndvi stage =
    Binary64.Main.calculate_crop_coefficient ndvi stage /\
  (Binary64.KcService.calculate_kc ndvi stage =
     Binary64.Main.calculate_crop_coefficient ndvi stage \/
   Binary64.Main.calculate_crop_coefficient ndvi stage = 0.7000000000000001%float /\
   Binary64.KcService.calculate_kc ndvi stage = 0.7%float) /\
  Binary64.Main.calculate_crop_coefficient 0.6 "mid" = 0.7000000000000001%float /\
  Binary64.KcService.calculate_kc 0.6 "mid" = 0.7%float.
Proof.
  split; [| split; [| vm_compute; split; reflexivity]];
    unfold Binary64.MockData.calculate_crop_coefficient,
      Binary64.KcService.calculate_kc, Binary64.Main.calculate_crop_coefficient,
      Binary64.adjustment, Binary64.base_kc;
    cbn [lookup]; cbv zeta;
    destruct (String.eqb stage "initial");
    destruct (String.eqb stage "mid");
    destruct (String.eqb stage "late");
    destruct (PrimFloat.ltb ndvi 0.3);
    destruct (PrimFloat.ltb ndvi 0.5);
    destruct (PrimFloat.ltb ndvi 0.7);
    vm_compute;
    first [ reflexivity | left; reflexivity | right; split; reflexivity ].
Qed.

(** ** Water savings: agreement and bounds *)



(** X4.  The guarded savings computation of [main_mock_data.py] answers on
    every pair of inputs, and every field of its report is non-negative;
    the percentage never exceeds 100. *)
Theorem mock_savings_bounded (traditional smart : R) :
  exists r,
    MockData.calculate_water_savings traditional smart = Ok r /\
    0 <= water_saved_liters r /\
    0 <= water_saved_cubic_meters r /\
    0 <= percentage_saved r <= 100 /\
    0 <= cost_saved_tnd r /\
    0 <= cost_saved_usd r.
Proof.
  destruct (Rle_dec traditional 0) as [Ht | Ht];
    [| destruct (Rlt_dec smart 0) as [Hs | Hs]].
  - exists MockData.zero_report; split; [apply mock_savings_guard; now left |].
    cbn; lra.
  - exists MockData.zero_report; split; [apply mock_savings_guard; now right |].
    cbn; lra.
  - assert (Htp : 0 < traditional) by lra.
    assert (Hsp : 0 <= smart) by lra.
    eexists; split; [apply mock_savings_past_guard; assumption |].
    cbn [water_saved_liters water_saved_cubic_meters percentage_saved
         cost_saved_tnd cost_saved_usd].
    set (saved := Rmax 0 (traditional - smart)).
    assert (Hs0 : 0 <= saved) by apply Rmax_l.
    assert (Hs1 : saved <= traditional) by (apply Rmax_lub; lra).
    assert (Hq : 0 <= saved / traditional * 100 <= 100).
    { assert (Hi : 0 < / traditional) by (apply Rinv_0_lt_compat; exact Htp).
      assert (Hq1 : saved / traditional <= 1).
      { apply Rmult_le_reg_r with traditional; [exact Htp |].
        unfold Rdiv; rewrite Rmult_assoc, Rinv_l by lra; lra. }
      assert (Hq0 : 0 <= saved / traditional) by (unfold Rdiv; nra).
      lra. }
    assert (Hcap : round (saved / traditional * 100) 2 <= 100).
    { replace 100 with (round (IZR 10000 / 10 ^ 2) 2) at 2
        by (rewrite round_exact; simpl; lra).
      apply round_mono; simpl; lra. }
    split; [apply round_nonneg; nra |].
    split; [apply round_nonneg; exact Hs0 |].
    split; [split; [apply round_nonneg; lra | exact Hcap] |].
    split; apply round_nonneg; nra.
Qed.

(** X5.  When the smart volume is at least the (positive) baseline, the
    guarded copy reports no savings at all, while [main.py] reports
    non-positive savings. *)
Theorem savings_when_smart_exceeds_baseline (traditional smart : R) :
  0 < traditional <= smart ->
  MockData.calculate_water_savings traditional smart = Ok MockData.zero_report /\
  exists r,
    Main.calculate_water_savings traditional smart = Ok r /\
    water_saved_liters r <= 0 /\
    water_saved_cubic_meters r <= 0 /\
    percentage_saved r <= 0 /\
    cost_saved_tnd r <= 0.
Proof.
  intros [Ht Hs].
  assert (Hnp : forall x, x <= 0 -> round x 2 <= 0).
  { intros x Hx; rewrite <- (round_zero 2); apply round_mono; exact Hx. }
  split.
  - rewrite mock_savings_past_guard by lra.
    rewrite Rmax_left by lra.
    unfold MockData.zero_report; f_equal.
    replace 0.0 with 0 by lra.
    replace (0 * 1000) with 0 by lra.
    replace (0 / traditional * 100) with 0 by (unfold Rdiv; lra).
    replace (0 * 0.5 * 0.32) with 0 by lra.
    replace (0 * 0.5) with 0 by lra.
    rewrite round_zero; reflexivity.
  - unfold Main.calculate_water_savings.
    rewrite div_ok by lra; cbn [bind].
    eexists; split; [reflexivity |].
    cbn [water_saved_liters water_saved_cubic_meters percentage_saved
         cost_saved_tnd].
    assert (Hi : 0 < / traditional) by (apply Rinv_0_lt_compat; exact Ht).
    repeat split; apply Hnp; unfold Rdiv; nra.
Qed.

Lemma savings_when_smart_exceeds_baseline_witness :
  MockData.calculate_water_savings 5 8 = Ok MockData.zero_report /\
  exists r,
    Main.calculate_water_savings 5 8 = Ok r /\
    water_saved_liters r <= 0 /\
    water_saved_cubic_meters r <= 0 /\
    percentage_saved r <= 0 /\
    cost_saved_tnd r <= 0.
Proof.
  apply savings_when_smart_exceeds_baseline; lra.
Defined.

(** ** The seasonal savings route *)

Lemma demo_farm_entries (farm_id : string) (farm : Farm) :
  dict_get DEMO_FARMS farm_id = Some farm ->
  (farm_size_hectares farm = 2.0 /\ farm_ndvi_score farm = 0.45) \/
  (farm_size_hectares farm = 5.0 /\ farm_ndvi_score farm = 0.72) \/
  (farm_size_hectares farm = 3.0 /\ farm_ndvi_score farm = 0.38).
Proof.
  unfold DEMO_FARMS; cbn [dict_get].
  destruct (String.eqb farm_id "farm_001");
    [intros E; injection E as <-; left; split; reflexivity |].
  destruct (String.eqb farm_id "farm_002");
    [intros E; injection E as <-; right; left; split; reflexivity |].
  destruct (String.eqb farm_id "farm_003");
    [intros E; injection E as <-; right; right; split; reflexivity |].
  discriminate.
Qed.

Lemma seasonal_savings_report (size : R) :
  0 < size ->
  Main.calculate_water_savings (size * 5000) (size * 3200) =
  Ok {| water_saved_liters := round (size * 1800 * 1000) 2;
        water_saved_cubic_meters := round (size * 1800) 2;
        percentage_saved := 36;
        cost_saved_tnd := round (size * 900) 2;
        cost_saved_usd := round (size * 288) 2 |}.
Proof.
  intros Hs.
  unfold Main.calculate_water_savings.
  rewrite div_ok by lra; cbn [bind].
  replace ((size * 5000 - size * 3200) / (size * 5000) * 100) with 36
    by (field; lra).
  rewrite (round_hundredths 3600 36) by lra.
  f_equal; f_equal; f_equal; lra.
Qed.

Lemma seasonal_savings_of_farm (farms : list (string * Farm)) (farm_id : string)
    (farm : Farm) :
  dict_get farms farm_id = Some farm -> 0 < farm_size_hectares farm ->
  exists a b,
    MainRoutes.get_savings farms farm_id = Ok (Answer a) /\
    MockRoutes.get_savings farms farm_id = Ok (Answer b) /\
    season_savings a = season_savings b /\
    percentage_saved (season_savings a) = 36 /\
    water_saved_cubic_meters (season_savings a)
      = round (farm_size_hectares farm * 1800) 2 /\
    aquifer_preservation_m3 a = aquifer_preservation_m3 b /\
    co2_saved_kg a = co2_saved_kg b /\
    trees_equivalent a = trees_equivalent b /\
    monthly_breakdown a = monthly_breakdown b /\
    traditional_usage_m3 b = round (traditional_usage_m3 a) 2 /\
    smart_usage_m3 b = round (smart_usage_m3 a) 2.
Proof.
  intros Hf Hs.
  unfold MainRoutes.get_savings, MockRoutes.get_savings; rewrite Hf; cbv zeta.
  rewrite Rmax_right by lra.
  replace 5000.0 with 5000 by lra; replace 3200.0 with 3200 by lra.
  rewrite <- (main_savings_is_mock (farm_size_hectares farm * 5000)
                (farm_size_hectares farm * 3200)) by lra.
  rewrite seasonal_savings_report by exact Hs; cbn [bind].
  do 2 eexists; split; [reflexivity | split; [reflexivity |]].
  cbn; repeat split; reflexivity.
Qed.

(** X6.  The seasonal savings route on the shipped registry: an
    unregistered id gets the 404 answer, and every registered farm gets, in
    both copies, a report whose savings are 36 percent of the
    5000 m3-per-hectare baseline, that is 1800 m3 per hectare; the two
    copies differ only in rounding the two usage figures. *)
Theorem seasonal_savings_constant (farm_id : string) :
  match dict_get DEMO_FARMS farm_id with
  | None =>
      MainRoutes.get_savings DEMO_FARMS farm_id = Ok (NotFound "Farm not found") /\
      MockRoutes.get_savings DEMO_FARMS farm_id = Ok (NotFound "Farm not found")
  | Some farm =>
      exists a b,
        MainRoutes.get_savings DEMO_FARMS farm_id = Ok (Answer a) /\
        MockRoutes.get_savings DEMO_FARMS farm_id = Ok (Answer b) /\
        season_savings a = season_savings b /\
        percentage_saved (season_savings a) = 36 /\
        water_saved_cubic_meters (season_savings a)
          = round (farm_size_hectares farm * 1800) 2 /\
        aquifer_preservation_m3 a = aquifer_preservation_m3 b /\
        co2_saved_kg a = co2_saved_kg b /\
        trees_equivalent a = trees_equivalent b /\
        monthly_breakdown a = monthly_breakdown b /\
        traditional_usage_m3 b = round (traditional_usage_m3 a) 2 /\
        smart_usage_m3 b = round (smart_usage_m3 a) 2
  end.
Proof.
  destruct (dict_get DEMO_FARMS farm_id) as [farm |] eqn:Hf.
  - apply seasonal_savings_of_farm; [exact Hf |].
    destruct (demo_farm_entries farm_id farm Hf) as [[E _] | [[E _] | [E _]]];
      rewrite E; lra.
  - unfold MainRoutes.get_savings, MockRoutes.get_savings; rewrite Hf.
    split; reflexivity.
Qed.

(** ** The NDVI route *)

Lemma ndvi_zones_shape (ndvi_score : R) :
  length (ndvi_zones ndvi_score) = 3%nat /\
  total_area (ndvi_zones ndvi_score) = 100%Z /\
  existsb (fun z => String.eqb (zone_status z) "Stressed") (ndvi_zones ndvi_score)
    = ltb ndvi_score 0.4.
Proof.
  unfold ndvi_zones.
  destruct (ltb ndvi_score 0.4); [repeat split |].
  destruct (ltb ndvi_score 0.6); repeat split.
Qed.

(** X7.  The NDVI route answers 404 exactly for an id that is not in the
    registry.  Otherwise it reports three zones whose area shares add up to
    100 percent, advises to focus irrigation exactly when the score is
    below 0.5, and advises to monitor the North zone exactly when the score
    is below 0.4 (so never without the first advice). *)
Theorem ndvi_route_report (farms : list (string * Farm)) (farm_id : string) :
  match dict_get farms farm_id with
  | None => get_ndvi farms farm_id = NotFound "Farm not found"
  | Some farm =>
      exists rep,
        get_ndvi farms farm_id = Answer rep /\
        overall_ndvi rep = farm_ndvi_score farm /\
        length (zones rep) = 3%nat /\
        total_area (zones rep) = 100%Z /\
        recommendations rep =
          [ if ltb (farm_ndvi_score farm) 0.5
            then "Focus irrigation on stressed zones"%string
            else "Maintain current irrigation schedule"%string;
            if ltb (farm_ndvi_score farm) 0.4
            then "Monitor North zone closely"%string
            else "All zones performing well"%string ] /\
        (In "Monitor North zone closely"%string (recommendations rep) ->
         In "Focus irrigation on stressed zones"%string (recommendations rep))
  end.
Proof.
  unfold get_ndvi.
  destruct (dict_get farms farm_id) as [farm |]; [| reflexivity].
  cbv zeta.
  destruct (ndvi_zones_shape (farm_ndvi_score farm)) as [Hlen [Harea Hany]].
  eexists; split; [reflexivity |].
  cbn [overall_ndvi zones recommendations].
  rewrite Hany.
  split; [reflexivity | split; [exact Hlen | split; [exact Harea |]]].
  split; [reflexivity |].
  destruct (ltb (farm_ndvi_score farm) 0.4) eqn:H4.
  - apply ltb_lt in H4.
    assert (H5 : ltb (farm_ndvi_score farm) 0.5 = true) by (apply ltb_lt; lra).
    rewrite H5; intros _; left; reflexivity.
  - intros [H | [H | []]].
    + destruct (ltb (farm_ndvi_score farm) 0.5); discriminate.
    + discriminate.
Qed.

(** ** ET0: when it raises, and how it reacts to humidity *)

Lemma wind_factor_pos : 0 < 4.87 / ln (67.8 * 10 - 5.42).
Proof. apply Rdiv_lt_0_compat; [lra | apply ln_pos; lra]. Qed.

Lemma mock_wind_factor_pos : 0 < 4.87 / ln (67.8 * 10 + 5.42).
Proof. apply Rdiv_lt_0_compat; [lra | apply ln_pos; lra]. Qed.



(** A step of a computation that can only raise one of the exceptions in
    [P]. *)
Ltac raise_or_continue_with close :=
  let Ex := fresh "Ex" in
  match goal with
  | |- context [div ?x ?y] =>
      unfold div at 1; destruct (Req_dec_T y 0); cbn [bind]; [close |]
  | |- context [math_exp ?x] =>
      destruct (math_exp_outcome x) as [Ex | Ex]; rewrite Ex; cbn [bind];
      [| close]
  end.

Ltac raised_is_listed :=
  let He := fresh "He" in intros He; injection He as <-; auto.

Ltac raise_or_continue := raise_or_continue_with raised_is_listed.



Lemma main_et0_exceptions (temp_max temp_min humidity wind_speed : obj)
    (latitude : R) (day_of_year : Z) (e : exn) :
  Main.calculate_et0 temp_max temp_min humidity wind_speed latitude
    day_of_year = Raise e ->
  e = ValueError \/ e = ZeroDivisionError \/ e = OverflowError \/ e = TypeError.
Proof.
  unfold Main.calculate_et0.
  destruct temp_max as [| tmax]; cbn [num bind];
    [intros He; injection He as <-; auto |].
  destruct temp_min as [| tmin]; cbn [num bind];
    [intros He; injection He as <-; auto |].
  cbv zeta.
  unfold math_acos; destruct (_ && _); cbn [bind];
    [| intros He; injection He as <-; auto].
  do 4 raise_or_continue.
  destruct humidity as [| hum]; cbn [num bind];
    [intros He; injection He as <-; auto |].
  destruct wind_speed as [| wind]; cbn [num bind];
    [intros He; injection He as <-; auto |].
  rewrite main_u2_value; cbn [bind].
  do 2 raise_or_continue.
  discriminate.
Qed.

(** The arc-cosine comes first in [main.py]: for numeric temperatures the
    outcome is [ValueError] exactly when its argument is out of range. *)
Lemma main_et0_domain_error
    (temp_max temp_min : R) (humidity wind_speed : obj) (latitude : R)
    (day_of_year : Z) :
  Main.calculate_et0 temp_max temp_min humidity wind_speed latitude
    day_of_year = Raise ValueError
  <-> ~ -1 <= sunset_arg latitude day_of_year <= 1.
Proof.
  unfold Main.calculate_et0; cbn [num bind]; cbv zeta.
  set (arg := sunset_arg latitude day_of_year).
  split.
  - intros H Hdom; rewrite math_acos_ok in H by exact Hdom; cbn [bind] in H.
    revert H.
    do 4 raise_or_continue_with discriminate.
    destruct humidity as [| hum]; cbn [num bind]; [discriminate |].
    destruct wind_speed as [| wind]; cbn [num bind]; [discriminate |].
    rewrite main_u2_value; cbn [bind].
    do 2 raise_or_continue_with discriminate.
    discriminate.
  - intros Hdom.
    rewrite math_acos_domain; [reflexivity |].
    destruct (Rle_dec (-1) arg); [| left; lra].
    destruct (Rle_dec arg 1); [| right; lra].
    exfalso; apply Hdom; split; assumption.
Qed.

(** X11.  The ET0 computation of [main.py], on numeric readings and for a
    latitude in [-90, 90]: it raises [ValueError] exactly when
    [-tan(lat) * tan(declination)] is outside [-1, 1].  Inside, with a
    non-negative wind speed and both temperatures above -237.3, it returns
    a non-negative value; a temperature of exactly -237.3 raises
    [ZeroDivisionError], one between -241 and -237.3 raises
    [OverflowError], and the negative wind speed at which [1 + 0.34 * u2]
    vanishes raises [ZeroDivisionError].  Whatever the readings, it raises
    nothing but these three exceptions and [TypeError]. *)
Theorem main_et0_failure_modes
    (temp_max temp_min humidity wind_speed latitude : R) (day_of_year : Z) :
  -90 <= latitude <= 90 ->
  let u2 := wind_speed * (4.87 / ln (67.8 * 10 - 5.42)) in
  let in_domain := -1 <= sunset_arg latitude day_of_year <= 1 in
  let et0 :=
    Main.calculate_et0 temp_max temp_min humidity wind_speed latitude
      day_of_year in
  (et0 = Raise ValueError <-> ~ in_domain) /\
  (in_domain -> 0 <= wind_speed -> -237.3 < temp_max -> -237.3 < temp_min ->
   exists v, et0 = Ok v /\ 0 <= v) /\
  (in_domain ->
   temp_max = -237.3 \/ (-237.3 < temp_max /\ temp_min = -237.3) ->
   et0 = Raise ZeroDivisionError) /\
  (in_domain ->
   -241 <= temp_max < -237.3 \/
   (-237.3 < temp_max /\ -241 <= temp_min < -237.3) ->
   et0 = Raise OverflowError) /\
  (in_domain -> -237.3 < temp_max -> -237.3 < temp_min ->
   1 + 0.34 * u2 = 0 -> et0 = Raise ZeroDivisionError) /\
  forall (tmax tmin hum wind : obj) e,
    Main.calculate_et0 tmax tmin hum wind latitude day_of_year = Raise e ->
    e = ValueError \/ e = ZeroDivisionError \/ e = OverflowError \/
    e = TypeError.
Proof.
  intros _; cbv zeta.
  split; [apply main_et0_domain_error |].
  split; [intros Hdom Hw Hmax Hmin; apply main_et0_returns; assumption |].
  split; [| split; [| split]].
  - intros Hdom Hb.
    unfold Main.calculate_et0; cbn [num bind]; cbv zeta.
    rewrite math_acos_ok by exact Hdom; cbn [bind].
    destruct Hb as [E | [Hmax E]].
    + rewrite (div_by_zero _ (temp_max + 237.3)) by lra; reflexivity.
    + rewrite (div_ok _ (temp_max + 237.3)) by lra; cbn [bind].
      rewrite math_exp_ok by (apply tetens_bound; exact Hmax); cbn [bind].
      rewrite (div_by_zero _ (temp_min + 237.3)) by lra; reflexivity.
  - intros Hdom Hb.
    unfold Main.calculate_et0; cbn [num bind]; cbv zeta.
    rewrite math_acos_ok by exact Hdom; cbn [bind].
    destruct Hb as [E | [Hmax E]].
    + rewrite (div_ok _ (temp_max + 237.3)) by lra; cbn [bind].
      rewrite math_exp_overflow by (apply tetens_overflow; exact E).
      reflexivity.
    + rewrite (div_ok _ (temp_max + 237.3)) by lra; cbn [bind].
      rewrite math_exp_ok by (apply tetens_bound; exact Hmax); cbn [bind].
      rewrite (div_ok _ (temp_min + 237.3)) by lra; cbn [bind].
      rewrite math_exp_overflow by (apply tetens_overflow; exact E).
      reflexivity.
  - intros Hdom Hmax Hmin Hzero.
    unfold Main.calculate_et0; cbn [num bind]; cbv zeta.
    rewrite math_acos_ok by exact Hdom; cbn [bind].
    rewrite (div_ok _ (temp_max + 237.3)) by lra; cbn [bind].
    rewrite math_exp_ok by (apply tetens_bound; exact Hmax); cbn [bind].
    rewrite (div_ok _ (temp_min + 237.3)) by lra; cbn [bind].
    rewrite math_exp_ok by (apply tetens_bound; exact Hmin); cbn [bind].
    rewrite main_u2_value; cbn [bind].
    rewrite (div_ok _ ((temp_max + temp_min) / 2 + 273)) by lra.
    cbn [bind].
    rewrite div_by_zero by exact Hzero; reflexivity.
  - intros tmax tmin hum wind e; apply main_et0_exceptions.
Qed.

Lemma main_et0_failure_modes_witness :
  (Main.calculate_et0 30 20 60 3.2 35.8 300 = Raise ValueError
   <-> ~ -1 <= sunset_arg 35.8 300 <= 1) /\
  exists v, Main.calculate_et0 30 20 60 3.2 35.8 300 = Ok v /\ 0 <= v.
Proof.
  assert (Hl : -90 <= 35.8 <= 90) by lra.
  destruct (main_et0_failure_modes 30 20 60 3.2 35.8 300 Hl) as (H1 & H2 & _).
  split; [exact H1 |].
  apply H2; [apply sunset_arg_temperate; lra | lra | lra | lra].
Defined.

(** The humidity enters the ET0 of [main_mock_data.py] through the vapour
    pressure deficit only. *)
Lemma mock_et0_in_humidity
    (temp_max temp_min wind_speed latitude : R) (day_of_year : Z) :
  0 <= wind_speed -> -237.3 < temp_max -> -237.3 < temp_min ->
  exists rn es,
    0 <= rn /\ 0 < es /\
    forall humidity : R,
      MockData.calculate_et0 temp_max temp_min humidity wind_speed latitude
        day_of_year =
      Ok (Rmax 0
            ((0.408 * rn +
              900 / ((temp_max + temp_min) / 2 + 273)
              * (wind_speed * (4.87 / ln (67.8 * 10 + 5.42)))
              * Rmax 0 (es - es * (humidity / 100)))
             / (1 + 0.34 * (wind_speed * (4.87 / ln (67.8 * 10 + 5.42)))))).
Proof.
  intros Hw Hmax Hmin.
  pose proof mock_wind_factor_pos as Hc.
  set (c := 4.87 / ln (67.8 * 10 + 5.42)) in *.
  set (sunset_angle := acos (MockData.acos_arg latitude day_of_year)).
  set (ra := 37.6 * (1 + 0.033 * cos (2 * PI * IZR day_of_year / 365)) *
             (sunset_angle * sin (radians latitude) *
              sin (solar_declination day_of_year) +
              cos (radians latitude) * cos (solar_declination day_of_year) *
              sin sunset_angle)).
  exists (Rmax 0 (0.77 * ((0.25 + 0.5) * ra) - 0.9)).
  exists ((0.6108 * exp (17.27 * temp_max / (temp_max + 237.3)) +
           0.6108 * exp (17.27 * temp_min / (temp_min + 237.3))) / 2).
  split; [apply Rmax_l | split].
  { pose proof (exp_pos (17.27 * temp_max / (temp_max + 237.3))).
    pose proof (exp_pos (17.27 * temp_min / (temp_min + 237.3))).
    lra. }
  intros humidity.
  unfold MockData.calculate_et0; cbn [num bind]; cbv zeta.
  rewrite math_acos_ok by apply mock_acos_arg_range; cbn [bind].
  rewrite (div_ok _ (temp_max + 237.3)) by lra; cbn [bind].
  rewrite math_exp_ok by (apply tetens_bound; exact Hmax); cbn [bind].
  rewrite (div_ok _ (temp_min + 237.3)) by lra; cbn [bind].
  rewrite math_exp_ok by (apply tetens_bound; exact Hmin); cbn [bind].
  rewrite mock_u2_value; fold c; cbn [bind].
  rewrite (div_ok _ ((temp_max + temp_min) / 2.0 + 273.0)) by lra.
  cbn [bind].
  rewrite div_ok by nra; cbn [bind try_except].
  fold sunset_angle; fold ra.
  replace 0.0 with 0 by lra.
  replace 900.0 with 900 by lra.
  replace 2.0 with 2 by lra.
  replace 273.0 with 273 by lra.
  replace 100.0 with 100 by lra.
  replace 1.0 with 1 by lra.
  reflexivity.
Qed.

(** X12.  In [main_mock_data.py], for a non-negative wind speed and
    temperatures above -237.3, more humid air never raises ET0. *)
Theorem mock_et0_antitone_in_humidity
    (temp_max temp_min h1 h2 wind_speed latitude : R) (day_of_year : Z) :
  h1 <= h2 -> 0 <= wind_speed ->
  -237.3 < temp_max -> -237.3 < temp_min ->
  exists v1 v2,
    MockData.calculate_et0 temp_max temp_min h1 wind_speed latitude day_of_year
      = Ok v1 /\
    MockData.calculate_et0 temp_max temp_min h2 wind_speed latitude day_of_year
      = Ok v2 /\
    v2 <= v1.
Proof.
  intros Hh Hw Hmax Hmin.
  destruct (mock_et0_in_humidity temp_max temp_min wind_speed latitude
              day_of_year Hw Hmax Hmin) as [rn [es [Hrn [Hes Hv]]]].
  do 2 eexists; split; [apply Hv | split; [apply Hv |]].
  pose proof mock_wind_factor_pos as Hc.
  set (c := 4.87 / ln (67.8 * 10 + 5.42)) in *.
  set (p := 900 / ((temp_max + temp_min) / 2 + 273)).
  assert (Hp : 0 < p) by (apply Rdiv_lt_0_compat; lra).
  assert (Hu : 0 <= wind_speed * c) by nra.
  assert (Hd : 0 < / (1 + 0.34 * (wind_speed * c)))
    by (apply Rinv_0_lt_compat; nra).
  assert (Hvpd : Rmax 0 (es - es * (h2 / 100)) <= Rmax 0 (es - es * (h1 / 100)))
    by (apply Rle_max_compat_l; nra).
  apply Rle_max_compat_l.
  unfold Rdiv at 1 3; apply Rmult_le_compat_r; [lra |].
  apply Rplus_le_compat_l.
  apply Rmult_le_compat_l; [nra | exact Hvpd].
Qed.

Lemma mock_et0_antitone_in_humidity_witness :
  exists v1 v2,
    MockData.calculate_et0 30 20 40 3.2 35.8 300 = Ok v1 /\
    MockData.calculate_et0 30 20 60 3.2 35.8 300 = Ok v2 /\
    v2 <= v1.
Proof.
  apply mock_et0_antitone_in_humidity; lra.
Defined.

(** ** The forecast loop and the rainfall estimate *)

Lemma main_et0_nonneg
    (temp_max temp_min humidity wind_speed : obj) (latitude : R)
    (day_of_year : Z) (v : R) :
  Main.calculate_et0 temp_max temp_min humidity wind_speed latitude day_of_year
    = Ok v -> 0 <= v.
Proof.
  unfold Main.calculate_et0.
  destruct (num temp_max); cbn [bind]; [| discriminate].
  destruct (num temp_min); cbn [bind]; [| discriminate].
  cbv zeta.
  destruct (math_acos _); cbn [bind]; [| discriminate].
  destruct (div _ _); cbn [bind]; [| discriminate].
  destruct (math_exp _); cbn [bind]; [| discriminate].
  destruct (div _ _); cbn [bind]; [| discriminate].
  destruct (math_exp _); cbn [bind]; [| discriminate].
  destruct (num humidity); cbn [bind]; [| discriminate].
  destruct (num wind_speed); cbn [bind]; [| discriminate].
  destruct (Main.u2 _); cbn [bind]; [| discriminate].
  destruct (div _ _); cbn [bind]; [| discriminate].
  destruct (div _ _); cbn [bind]; [| discriminate].
  intros E; injection E as <-; apply Rmax_l.
Qed.

Lemma mock_et0_nonneg
    (temp_max temp_min humidity wind_speed : obj) (latitude : R)
    (day_of_year : Z) (v : R) :
  MockData.calculate_et0 temp_max temp_min humidity wind_speed latitude day_of_year
    = Ok v -> 0 <= v.
Proof.
  unfold MockData.calculate_et0.
  destruct (num temp_max); cbn [bind]; [| discriminate].
  destruct (num temp_min); cbn [bind]; [| discriminate].
  cbv zeta.
  destruct (math_acos _); cbn [bind]; [| discriminate].
  destruct (div _ _); cbn [bind]; [| discriminate].
  destruct (math_exp _); cbn [bind]; [| discriminate].
  destruct (div _ _); cbn [bind]; [| discriminate].
  destruct (math_exp _); cbn [bind]; [| discriminate].
  destruct (num humidity); cbn [bind]; [| discriminate].
  destruct (num wind_speed); cbn [bind]; [| discriminate].
  destruct (MockData.u2 _); cbn [bind]; [| discriminate].
  intros E; injection E as <-.
  apply Rle_trans with 0.0; [lra | apply Rmax_l].
Qed.

Lemma main_et0_loop_app (lat : R) (l1 l2 : list ForecastDay) :
  forall total_et0 day_of_year,
    Main.et0_loop lat (l1 ++ l2) total_et0 day_of_year =
    (t <- Main.et0_loop lat l1 total_et0 day_of_year ;;
     Main.et0_loop lat l2 t (day_of_year + Z.of_nat (length l1))).
Proof.
  induction l1 as [| day rest IH]; intros total_et0 day_of_year.
  - cbn [app Main.et0_loop bind length Z.of_nat].
    now rewrite Z.add_0_r.
  - cbn [app Main.et0_loop length].
    destruct (item (temp_max day)); cbn [bind]; [| reflexivity].
    destruct (item (temp_min day)); cbn [bind]; [| reflexivity].
    destruct (item (humidity day)); cbn [bind]; [| reflexivity].
    destruct (item (wind_speed day)); cbn [bind]; [| reflexivity].
    destruct (Main.calculate_et0 _ _ _ _ _ _); cbn [bind]; [| reflexivity].
    rewrite IH.
    replace (day_of_year + 1 + Z.of_nat (length rest))%Z
      with (day_of_year + Z.of_nat (S (length rest)))%Z by lia.
    reflexivity.
Qed.

Lemma mock_et0_loop_app (lat : R) (l1 l2 : list ForecastDay) :
  forall total_et0 day_of_year,
    MockData.et0_loop lat (l1 ++ l2) total_et0 day_of_year =
    (t <- MockData.et0_loop lat l1 total_et0 day_of_year ;;
     MockData.et0_loop lat l2 t (day_of_year + Z.of_nat (length l1))).
Proof.
  induction l1 as [| day rest IH]; intros total_et0 day_of_year.
  - cbn [app MockData.et0_loop bind length Z.of_nat].
    now rewrite Z.add_0_r.
  - cbn [app MockData.et0_loop length].
    destruct (MockData.calculate_et0 _ _ _ _ _ _); cbn [bind]; [| reflexivity].
    rewrite IH.
    replace (day_of_year + 1 + Z.of_nat (length rest))%Z
      with (day_of_year + Z.of_nat (S (length rest)))%Z by lia.
    reflexivity.
Qed.

Lemma main_et0_loop_ge (lat : R) (l : list ForecastDay) :
  forall total_et0 day_of_year t,
    Main.et0_loop lat l total_et0 day_of_year = Ok t -> total_et0 <= t.
Proof.
  induction l as [| day rest IH]; intros total_et0 day_of_year t.
  - cbn [Main.et0_loop]; intros E; injection E as <-; lra.
  - cbn [Main.et0_loop].
    destruct (item (temp_max day)); cbn [bind]; [| discriminate].
    destruct (item (temp_min day)); cbn [bind]; [| discriminate].
    destruct (item (humidity day)); cbn [bind]; [| discriminate].
    destruct (item (wind_speed day)); cbn [bind]; [| discriminate].
    destruct (Main.calculate_et0 _ _ _ _ _ _) as [v |] eqn:Ev; cbn [bind];
      [| discriminate].
    intros Hl; apply IH in Hl; apply main_et0_nonneg in Ev; lra.
Qed.

Lemma mock_et0_loop_ge (lat : R) (l : list ForecastDay) :
  forall total_et0 day_of_year t,
    MockData.et0_loop lat l total_et0 day_of_year = Ok t -> total_et0 <= t.
Proof.
  induction l as [| day rest IH]; intros total_et0 day_of_year t.
  - cbn [MockData.et0_loop]; intros E; injection E as <-; lra.
  - cbn [MockData.et0_loop].
    destruct (MockData.calculate_et0 _ _ _ _ _ _) as [v |] eqn:Ev; cbn [bind];
      [| discriminate].
    intros Hl; apply IH in Hl; apply mock_et0_nonneg in Ev; lra.
Qed.

(** X13.  The forecast loop composes over concatenation: running it on
    [l1 ++ l2] is running it on [l1] and then on [l2], started from the total
    reached and from the day of the year advanced by the length of [l1]
    (each forecast entry is evaluated at its own day of the year). *)
Theorem et0_loop_over_append (lat : R) (l1 l2 : list ForecastDay)
    (total_et0 : R) (day_of_year : Z) :
  Main.et0_loop lat (l1 ++ l2) total_et0 day_of_year =
    (t <- Main.et0_loop lat l1 total_et0 day_of_year ;;
     Main.et0_loop lat l2 t (day_of_year + Z.of_nat (length l1))) /\
  MockData.et0_loop lat (l1 ++ l2) total_et0 day_of_year =
    (t <- MockData.et0_loop lat l1 total_et0 day_of_year ;;
     MockData.et0_loop lat l2 t (day_of_year + Z.of_nat (length l1))).
Proof.
  split; [apply main_et0_loop_app | apply mock_et0_loop_app].
Qed.

(** The sum over a list whose terms lie in [lo, hi]. *)
Lemma py_sum_acc {A : Type} (f : A -> R) (l : list A) (acc : R) :
  fold_left (fun a d => a + f d) l acc = acc + py_sum f l.
Proof.
  unfold py_sum; revert acc.
  induction l as [| x rest IH]; intros acc; cbn [fold_left]; [lra |].
  rewrite (IH (acc + f x)), (IH (0 + f x)); lra.
Qed.

Lemma py_sum_cons {A : Type} (f : A -> R) (x : A) (l : list A) :
  py_sum f (x :: l) = f x + py_sum f l.
Proof.
  unfold py_sum at 1; cbn [fold_left]; rewrite py_sum_acc; lra.
Qed.

Lemma py_sum_bounds {A : Type} (f : A -> R) (lo hi : R) (l : list A) :
  Forall (fun d => lo <= f d <= hi) l ->
  lo * INR (length l) <= py_sum f l <= hi * INR (length l).
Proof.
  induction 1 as [| x rest Hx _ IH].
  - unfold py_sum; cbn; lra.
  - rewrite py_sum_cons.
    change (length (x :: rest)) with (S (length rest)); rewrite S_INR; lra.
Qed.

Lemma Forall_window {A : Type} (P : A -> Prop) (n : nat) (l : list A) :
  Forall P l -> Forall P (firstn n l).
Proof.
  intros H; revert n; induction H as [| x rest Hx _ IH]; intros n.
  - rewrite firstn_nil; constructor.
  - destruct n as [| n]; [constructor |].
    cbn [firstn]; constructor; [exact Hx | apply IH].
Qed.

Lemma expected_rain_same (l : list ForecastDay) :
  MockData.expected_rain l = Main.expected_rain l.
Proof.
  unfold MockData.expected_rain, Main.expected_rain.
  induction l as [| d rest IH]; [reflexivity |].
  rewrite !py_sum_cons, IH; lra.
Qed.

Lemma expected_rain_range (l : list ForecastDay) :
  Forall (fun d => 0 <= get (rain_probability d) 0 <= 100) l ->
  0 <= Main.expected_rain l <= 5 * INR (length l).
Proof.
  intros Hl.
  assert (Hf : Forall (fun d => 0 <= get (rain_probability d) 0 / 100 * 5 <= 5) l).
  { apply Forall_impl with (2 := Hl); intros d Hd; cbv beta in *; lra. }
  pose proof (py_sum_bounds _ 0 5 l Hf) as Hb.
  unfold Main.expected_rain; lra.
Qed.

(** X14.  The rainfall estimate of both handlers is the same number; when
    every forecast probability lies between 0 and 100 percent (a missing
    one counts as 0) it lies between 0 and 5 mm per forecast day, hence
    within [0, 15] on a window of at most three days. *)
Theorem expected_rain_bounds (l : list ForecastDay) :
  Forall (fun d => 0 <= get (rain_probability d) 0 <= 100) l ->
  MockData.expected_rain l = Main.expected_rain l /\
  0 <= Main.expected_rain l <= 5 * INR (length l) /\
  0 <= Main.expected_rain (firstn 3 l) <= 15.
Proof.
  intros Hl.
  split; [apply expected_rain_same | split; [apply expected_rain_range; exact Hl |]].
  assert (H3 : Forall (fun d => 0 <= get (rain_probability d) 0 <= 100) (firstn 3 l))
    by (apply Forall_window; exact Hl).
  pose proof (expected_rain_range _ H3) as [Hlo Hhi].
  assert (Hn : (length (firstn 3 l) <= 3)%nat) by apply firstn_le_length.
  apply le_INR in Hn.
  replace (INR 3) with 3 in Hn by (simpl; lra).
  lra.
Qed.

Lemma expected_rain_bounds_witness :
  MockData.expected_rain [calm_day; calm_day] = Main.expected_rain [calm_day; calm_day] /\
  0 <= Main.expected_rain [calm_day; calm_day] <= 5 * INR 2 /\
  0 <= Main.expected_rain (firstn 3 [calm_day; calm_day]) <= 15.
Proof.
  apply (expected_rain_bounds [calm_day; calm_day]).
  repeat constructor; unfold calm_day; cbn [rain_probability get]; lra.
Defined.

(** ** A request that [main.py] answers *)

(** On the equator, without wind, the arc-cosine argument is 0 and ET0 is
    the radiation term alone, which is at least 7 mm per day. *)
Lemma main_equator_et0 (temp_max temp_min humidity : R) (day_of_year : Z) :
  -237.3 < temp_max -> -237.3 < temp_min ->
  exists v,
    Main.calculate_et0 temp_max temp_min humidity 0 0 day_of_year = Ok v /\
    7 <= v.
Proof.
  intros Hmax Hmin.
  assert (Hrad : radians 0 = 0) by (unfold radians; lra).
  assert (Harg : sunset_arg 0 day_of_year = 0).
  { rewrite sunset_arg_regular by lra; rewrite Hrad, tan_0; lra. }
  unfold Main.calculate_et0; cbn [num bind]; cbv zeta.
  rewrite Harg, math_acos_ok by lra; cbn [bind].
  rewrite acos_0, Hrad, sin_0, cos_0, sin_PI2.
  rewrite (div_ok _ (temp_max + 237.3)) by lra; cbn [bind].
  rewrite math_exp_ok by (apply tetens_bound; exact Hmax); cbn [bind].
  rewrite (div_ok _ (temp_min + 237.3)) by lra; cbn [bind].
  rewrite math_exp_ok by (apply tetens_bound; exact Hmin); cbn [bind].
  rewrite main_u2_value; cbn [bind].
  rewrite (div_ok _ ((temp_max + temp_min) / 2 + 273)) by lra.
  cbn [bind].
  rewrite div_ok by lra; cbn [bind].
  eexists; split; [reflexivity |].
  apply Rle_trans with (2 := Rmax_r _ _).
  set (dr := 1 + 0.033 * cos (2 * PI * IZR day_of_year / 365)).
  set (delta := solar_declination day_of_year).
  assert (Hdr : 0.967 <= dr).
  { unfold dr; pose proof (COS_bound (2 * PI * IZR day_of_year / 365)); lra. }
  assert (Hdelta : -0.409 <= delta <= 0.409).
  { unfold delta, solar_declination.
    pose proof (SIN_bound (2 * PI / 365 * IZR day_of_year - 1.39)); lra. }
  assert (Hcos : 0.916 <= cos delta).
  { apply Rle_trans with (1 - delta ^ 2 / 2);
      [nra | apply cos_quadratic_lower; lra]. }
  assert (Hra : 33 <= 37.6 * dr * cos delta) by nra.
  replace (0 * (4.87 / ln (67.8 * 10 - 5.42))) with 0 by lra.
  unfold Rdiv; nra.
Qed.

Lemma main_equator_request_answered :
  exists r, Main.calculate_irrigation equator_request = Ok (Success r).
Proof.
  assert (Hday : forall d, exists v,
             Main.calculate_et0 30 20 60 0 0 d = Ok v /\ 7 <= v).
  { intros d; apply main_equator_et0; lra. }
  destruct (Hday 300%Z) as [v0 [E0 H0]].
  destruct (Hday 301%Z) as [v1 [E1 H1]].
  destruct (Hday 302%Z) as [v2 [E2 H2]].
  unfold Main.calculate_irrigation, equator_request; cbv zeta.
  cbn [fetched success negb forecast firstn lat today current Main.et0_loop
       calm_day item temp_max temp_min humidity wind_speed bind].
  change (300 + 1)%Z with 301%Z; change (301 + 1)%Z with 302%Z.
  rewrite E0; cbn [bind]; rewrite E1; cbn [bind]; rewrite E2; cbn [bind].
  cbn [ndvi_score size_hectares tree_count].
  set (kc := Main.calculate_crop_coefficient 0.45 "mid").
  assert (Hkc : 0.5 <= kc).
  { destruct (kc_on_grid 0.45 "mid") as [k [Hk [Hk1 _]]].
    apply IZR_le in Hk1; unfold kc; rewrite Hk; lra. }
  set (rain := Main.expected_rain [calm_day; calm_day; calm_day]).
  assert (Hrain : rain = 0).
  { unfold rain, Main.expected_rain, py_sum, calm_day.
    cbn [fold_left rain_probability get]; lra. }
  set (net := Main.net_irrigation_mm (0 + v0 + v1 + v2) kc rain).
  assert (Hnet : 10 <= net).
  { unfold net, Main.net_irrigation_mm; cbv zeta.
    apply Rle_trans with (2 := Rmax_r _ _); rewrite Hrain; nra. }
  set (x := Main.irrigation_m3 net 2.0).
  assert (Hx : 0 < x) by (unfold x, Main.irrigation_m3; cbv zeta; lra).
  rewrite liters_per_tree_planted by lia; cbn [bind].
  rewrite main_savings_of_baseline by exact Hx; cbn [bind].
  destruct (classify 0.45) as [status urg].
  cbn [temperature item bind index nth_error weather].
  eexists; reflexivity.
Qed.

(** ** The baseline in the pipeline *)






(** ** What an answered request looks like *)

Lemma mock_answer_fields (req : IrrigationRequest) (forecast : list ForecastDay)
    (r : Recommendation) :
  MockData.calculate_on req forecast = Ok (Success r) ->
  exists total_et0 l,
    MockData.et0_loop (lat req) forecast 0.0 (today req) = Ok total_et0 /\
    let kc := MockData.calculate_crop_coefficient (ndvi_score req) "mid" in
    let net := MockData.net_irrigation_mm total_et0 kc
                 (MockData.expected_rain forecast) in
    let x := MockData.irrigation_m3 net (size_hectares req) in
    MockData.liters_per_tree x (tree_count req) = Ok l /\
    MockData.calculate_water_savings (MockData.traditional_m3 x) x
      = Ok (savings r) /\
    total_et0_mm r = round total_et0 2 /\
    expected_rain_mm r = round (MockData.expected_rain forecast) 2 /\
    irrigation_needed_mm r = round net 2 /\
    irrigation_needed_m3 r = round x 3 /\
    irrigation_needed_liters r = round (x * 1000.0) 2 /\
    liters_per_tree_out r = round l 2 /\
    duration_hours_per_tree r = round (MockData.hours_per_tree l) 2 /\
    smart_method_m3 r = round x 3 /\
    traditional_method_m3 r = round (MockData.traditional_m3 x) 3 /\
    (health_status r, urgency r) = classify (ndvi_score req) /\
    kc_coefficient r = round kc 3 /\
    weather_fetch_success r = Some (success (fetched req)).
Proof.
  intros H; unfold MockData.calculate_on in H; cbv zeta in H.
  destruct (MockData.et0_loop _ _ _ _) as [t | e]; cbn [bind] in H; [| discriminate].
  destruct (MockData.liters_per_tree _ _) as [l | e] eqn:El;
    cbn [bind] in H; [| discriminate].
  destruct (MockData.calculate_water_savings _ _) as [s | e] eqn:Es;
    cbn [bind] in H; [| discriminate].
  destruct (classify _) as [status urg].
  injection H as <-.
  exists t, l; cbv zeta; cbn.
  repeat split; assumption || reflexivity.
Qed.

Lemma main_answer_fields (req : IrrigationRequest) (r : Recommendation) :
  Main.calculate_irrigation req = Ok (Success r) ->
  success (fetched req) = true /\
  (3 <= length (forecast (fetched req)))%nat /\
  temperature (current (fetched req)) <> None /\
  exists total_et0 l,
    Main.et0_loop (lat req) (firstn 3 (forecast (fetched req))) 0 (today req)
      = Ok total_et0 /\
    let kc := Main.calculate_crop_coefficient (ndvi_score req) "mid" in
    let net := Main.net_irrigation_mm total_et0 kc
                 (Main.expected_rain (firstn 3 (forecast (fetched req)))) in
    let x := Main.irrigation_m3 net (size_hectares req) in
    Main.liters_per_tree x (tree_count req) = Ok l /\
    Main.calculate_water_savings (Main.traditional_m3 x) x = Ok (savings r) /\
    total_et0_mm r = round total_et0 2 /\
    irrigation_needed_mm r = round net 2 /\
    irrigation_needed_m3 r = round x 2 /\
    liters_per_tree_out r = round l 2 /\
    (health_status r, urgency r) = classify (ndvi_score req) /\
    kc_coefficient r = round kc 3.
Proof.
  intros H; unfold Main.calculate_irrigation in H; cbv zeta in H.
  destruct (success (fetched req)); cbn [negb] in H; [| discriminate].
  destruct (Main.et0_loop _ _ _ _) as [t | e]; cbn [bind] in H; [| discriminate].
  destruct (Main.liters_per_tree _ _) as [l | e] eqn:El;
    cbn [bind] in H; [| discriminate].
  destruct (Main.calculate_water_savings _ _) as [s | e] eqn:Es;
    cbn [bind] in H; [| discriminate].
  destruct (classify _) as [status urg].
  destruct (temperature (current (fetched req))) as [temp |] eqn:Et;
    cbn [item bind] in H; [| discriminate].
  destruct (index _ 0) as [d0 |]; cbn [bind] in H; [| discriminate].
  destruct (item (weather d0)); cbn [bind] in H; [| discriminate].
  destruct (index _ 1) as [d1 |]; cbn [bind] in H; [| discriminate].
  destruct (item (weather d1)); cbn [bind] in H; [| discriminate].
  destruct (index _ 2) as [d2 |] eqn:E2; cbn [bind] in H; [| discriminate].
  destruct (item (weather d2)); cbn [bind] in H; [| discriminate].
  injection H as <-.
  split; [reflexivity | split; [| split; [discriminate |]]].
  - unfold index in E2.
    destruct (nth_error (firstn 3 (forecast (fetched req))) 2) eqn:En;
      [| discriminate].
    assert (Hlt : (2 < length (firstn 3 (forecast (fetched req))))%nat)
      by (apply nth_error_Some; rewrite En; discriminate).
    rewrite length_firstn in Hlt; lia.
  - exists t, l; cbv zeta; cbn.
    repeat split; assumption || reflexivity.
Qed.

Lemma classify_row (ndvi : R) (r : Recommendation) (kc : R) :
  (health_status r, urgency r) = classify ndvi ->
  kc = lookup base_kc "mid" 0.65 + adjustment ndvi ->
  kc_coefficient r = round kc 3 ->
  health_row ndvi r.
Proof.
  intros Hc Hk Hr.
  assert (Hb : lookup base_kc "mid" 0.65 = 0.65) by reflexivity.
  rewrite Hb in Hk; subst kc.
  unfold classify in Hc; unfold health_row.
  destruct (adjustment_bands ndvi) as [[Hn E] | [[Hn E] | [[Hn E] | [Hn E]]]];
    rewrite E in Hr.
  - assert (B1 : ltb ndvi 0.3 = true) by (apply ltb_lt; lra).
    rewrite B1 in Hc; injection Hc as Hs Hu.
    left; repeat split; try lra; try assumption.
    rewrite Hr; replace (0.65 + 0.15) with 0.8 by lra.
    apply (round_thousandths 800); lra.
  - assert (B1 : ltb ndvi 0.3 = false) by (apply ltb_ge; lra).
    assert (B2 : ltb ndvi 0.5 = true) by (apply ltb_lt; lra).
    rewrite B1, B2 in Hc; injection Hc as Hs Hu.
    right; left; repeat split; try lra; try assumption.
    rewrite Hr; replace (0.65 + 0.10) with 0.75 by lra.
    apply (round_thousandths 750); lra.
  - assert (B1 : ltb ndvi 0.3 = false) by (apply ltb_ge; lra).
    assert (B2 : ltb ndvi 0.5 = false) by (apply ltb_ge; lra).
    assert (B3 : ltb ndvi 0.7 = true) by (apply ltb_lt; lra).
    rewrite B1, B2, B3 in Hc; injection Hc as Hs Hu.
    right; right; left; repeat split; try lra; try assumption.
    rewrite Hr; replace (0.65 + 0.05) with 0.7 by lra.
    apply (round_thousandths 700); lra.
  - assert (B1 : ltb ndvi 0.3 = false) by (apply ltb_ge; lra).
    assert (B2 : ltb ndvi 0.5 = false) by (apply ltb_ge; lra).
    assert (B3 : ltb ndvi 0.7 = false) by (apply ltb_ge; lra).
    rewrite B1, B2, B3 in Hc; injection Hc as Hs Hu.
    right; right; right; repeat split; try lra; try assumption.
    rewrite Hr; replace (0.65 + 0.0) with 0.65 by lra.
    apply (round_thousandths 650); lra.
Qed.

(** X15.  In every answer of either handler the health label, the urgency
    and the reported crop coefficient move together with the NDVI band:
    below 0.3 the answer is critical / urgent with coefficient 0.8, below
    0.5 moderate stress / high with 0.75, below 0.7 healthy / normal with
    0.7, and otherwise excellent / low with 0.65. *)
Theorem answer_health_rows (req : IrrigationRequest) (r : Recommendation) :
  (Main.calculate_irrigation req = Ok (Success r) ->
   health_row (ndvi_score req) r) /\
  (MockData.calculate_irrigation req = Ok (Success r) ->
   health_row (ndvi_score req) r).
Proof.
  split; intros H.
  - destruct (main_answer_fields req r H)
      as (_ & _ & _ & t & l & _ & Hf); cbv zeta in Hf.
    destruct Hf as (_ & _ & _ & _ & _ & _ & Hc & Hk).
    apply (classify_row _ _ _ Hc eq_refl Hk).
  - destruct (mock_answer_fields req _ r H) as (t & l & _ & Hf); cbv zeta in Hf.
    destruct Hf as (_ & _ & _ & _ & _ & _ & _ & _ & _ & _ & _ & Hc & Hk & _).
    rewrite mock_kc_is_main_kc in Hk.
    apply (classify_row _ _ _ Hc eq_refl Hk).
Qed.

Lemma answer_health_rows_witness :
  (exists r, Main.calculate_irrigation equator_request = Ok (Success r) /\
             health_row (ndvi_score equator_request) r) /\
  (exists r, MockData.calculate_irrigation empty_window_request = Ok (Success r) /\
             health_row (ndvi_score empty_window_request) r).
Proof.
  split.
  - destruct main_equator_request_answered as [r Hr].
    exists r; split; [exact Hr |].
    exact (proj1 (answer_health_rows equator_request r) Hr).
  - destruct empty_window_request_answered as [r Hr].
    exists r; split; [exact Hr |].
    exact (proj2 (answer_health_rows empty_window_request r) Hr).
Defined.

Lemma third_of_baseline_nonzero (x : R) :
  x <> 0 -> (x * 1.5 - x) / (x * 1.5) * 100 = 100 / 3.
Proof.
  intros Hx.
  replace (x * 1.5 - x) with (x * 1.5 * (1 / 3)) by lra.
  assert (Hy : x * 1.5 <> 0) by (intros E; apply Hx; lra).
  generalize dependent (x * 1.5); intros y Hy; field; exact Hy.
Qed.

Lemma main_savings_needs_volume (x : R) (s : SavingsReport) :
  Main.calculate_water_savings (Main.traditional_m3 x) x = Ok s ->
  x <> 0 /\ percentage_saved s = 33.33.
Proof.
  unfold Main.calculate_water_savings, Main.traditional_m3.
  destruct (Req_dec_T x 0) as [E | E].
  - rewrite div_by_zero by lra; discriminate.
  - rewrite div_ok by (intros E'; apply E; lra); cbn [bind].
    intros H; injection H as <-; cbn [percentage_saved].
    split; [exact E |].
    rewrite third_of_baseline_nonzero by exact E; apply round_third.
Qed.

Lemma main_liters_per_tree_nonneg (x : R) (n : Z) (l : R) :
  0 <= x -> Main.liters_per_tree x n = Ok l -> 0 <= l.
Proof.
  intros Hx.
  destruct (Z.lt_ge_cases 0 n) as [Hn | Hn].
  - rewrite liters_per_tree_planted by exact Hn.
    intros E; injection E as <-.
    apply IZR_lt in Hn.
    apply Rmult_le_pos; [lra | left; apply Rinv_0_lt_compat; exact Hn].
  - rewrite liters_per_tree_unplanted by exact Hn.
    intros E; injection E as <-; lra.
Qed.

Lemma hours_per_tree_nonneg (l : R) : 0 <= Main.hours_per_tree l.
Proof.
  unfold Main.hours_per_tree.
  destruct (ltb 0 l) eqn:B; [apply ltb_lt in B |]; lra.
Qed.

(** X16.  Every answer of the [main_mock_data.py] handler is physically
    sensible: the total ET0, the irrigation depth, the volumes, the liters
    and hours per tree are all non-negative, the traditional volume is at
    least the smart one, and the savings are either the all-zero report (no
    irrigation needed) or 33.33 percent. *)
Theorem mock_answer_is_sensible (req : IrrigationRequest) (r : Recommendation) :
  MockData.calculate_irrigation req = Ok (Success r) ->
  0 <= total_et0_mm r /\
  0 <= irrigation_needed_mm r /\
  0 <= irrigation_needed_m3 r /\
  0 <= irrigation_needed_liters r /\
  0 <= liters_per_tree_out r /\
  0 <= duration_hours_per_tree r /\
  smart_method_m3 r <= traditional_method_m3 r /\
  (savings r = MockData.zero_report \/ percentage_saved (savings r) = 33.33).
Proof.
  intros H.
  destruct (mock_answer_fields req _ r H) as (t & l & Hloop & Hf); cbv zeta in Hf.
  set (net := MockData.net_irrigation_mm t
                (MockData.calculate_crop_coefficient (ndvi_score req) "mid")
                (MockData.expected_rain (MockData.window (fetched req)))) in *.
  set (x := MockData.irrigation_m3 net (size_hectares req)) in *.
  destruct Hf as (Hl & Hs & Ht & _ & Hmm & Hm3 & Hli & Hlt & Hh & Hsm & Htr & _).
  assert (Ht0 : 0 <= t) by (apply mock_et0_loop_ge in Hloop; lra).
  assert (Hnet : 0 <= net).
  { unfold net, MockData.net_irrigation_mm; cbv zeta.
    apply Rle_trans with 0.0; [lra | apply Rmax_l]. }
  assert (Hx : 0 <= x).
  { unfold x, MockData.irrigation_m3; cbv zeta.
    assert (Ha : 0 <= Rmax 0.0 (size_hectares req))
      by (apply Rle_trans with 0.0; [lra | apply Rmax_l]).
    apply Rmult_le_pos; lra. }
  assert (Hl0 : 0 <= l).
  { rewrite liters_per_tree_same in Hl.
    apply (main_liters_per_tree_nonneg x (tree_count req)); assumption. }
  rewrite Ht, Hmm, Hm3, Hli, Hlt, Hh, Hsm, Htr.
  split; [apply round_nonneg; exact Ht0 |].
  split; [apply round_nonneg; exact Hnet |].
  split; [apply round_nonneg; exact Hx |].
  split; [apply round_nonneg; lra |].
  split; [apply round_nonneg; exact Hl0 |].
  split; [apply round_nonneg; rewrite hours_per_tree_same;
          apply hours_per_tree_nonneg |].
  split; [apply round_mono; unfold MockData.traditional_m3; lra |].
  destruct (Req_dec_T x 0) as [E | E].
  - left.
    rewrite mock_savings_guard in Hs
      by (left; unfold MockData.traditional_m3; lra).
    now injection Hs as <-.
  - right.
    rewrite mock_savings_of_baseline in Hs by lra.
    now injection Hs as <-.
Qed.

Lemma mock_answer_is_sensible_witness :
  exists r,
    MockData.calculate_irrigation empty_window_request = Ok (Success r) /\
    0 <= irrigation_needed_m3 r /\
    smart_method_m3 r <= traditional_method_m3 r.
Proof.
  destruct empty_window_request_answered as [r Hr].
  exists r; split; [exact Hr |].
  destruct (mock_answer_is_sensible empty_window_request r Hr)
    as (_ & _ & H3 & _ & _ & _ & H7 & _).
  split; assumption.
Defined.

(** X17.  [main.py] answers with a recommendation only when the weather
    fetch succeeded, the forecast has at least three entries, the current
    temperature is present, the area is not zero and the net irrigation
    depth is strictly positive; its answer then always reports 33.33
    percent savings.  In particular it never reports that no irrigation is
    needed. *)
Theorem main_answer_requirements (req : IrrigationRequest) (r : Recommendation) :
  Main.calculate_irrigation req = Ok (Success r) ->
  success (fetched req) = true /\
  (3 <= length (forecast (fetched req)))%nat /\
  temperature (current (fetched req)) <> None /\
  size_hectares req <> 0 /\
  percentage_saved (savings r) = 33.33 /\
  exists total_et0,
    Main.et0_loop (lat req) (firstn 3 (forecast (fetched req))) 0 (today req)
      = Ok total_et0 /\
    0 <= total_et0 /\
    0 < Main.net_irrigation_mm total_et0
          (Main.calculate_crop_coefficient (ndvi_score req) "mid")
          (Main.expected_rain (firstn 3 (forecast (fetched req)))).
Proof.
  intros H.
  destruct (main_answer_fields req r H) as (Hs & Hlen & Htemp & t & l & Hloop & Hf).
  cbv zeta in Hf; destruct Hf as (_ & Hsav & _).
  apply main_savings_needs_volume in Hsav as [Hx Hpct].
  set (net := Main.net_irrigation_mm t
                (Main.calculate_crop_coefficient (ndvi_score req) "mid")
                (Main.expected_rain (firstn 3 (forecast (fetched req))))) in *.
  assert (Hnet : 0 <= net) by apply Rmax_l.
  unfold Main.irrigation_m3 in Hx; cbv zeta in Hx.
  split; [exact Hs | split; [exact Hlen | split; [exact Htemp |]]].
  split; [intros E; apply Hx; rewrite E; lra |].
  split; [exact Hpct |].
  exists t; split; [exact Hloop | split].
  - apply main_et0_loop_ge in Hloop; exact Hloop.
  - destruct Hnet as [Hpos | Hz]; [exact Hpos |].
    exfalso; apply Hx; rewrite <- Hz; lra.
Qed.

Lemma main_answer_requirements_witness :
  exists r,
    Main.calculate_irrigation equator_request = Ok (Success r) /\
    (3 <= length (forecast (fetched equator_request)))%nat /\
    percentage_saved (savings r) = 33.33.
Proof.
  destruct main_equator_request_answered as [r Hr].
  exists r; split; [exact Hr |].
  destruct (main_answer_requirements equator_request r Hr)
    as (_ & Hlen & _ & _ & Hpct & _).
  split; assumption.
Defined.

Lemma main_zero_volume_divides (req : IrrigationRequest) (t : R) :
  success (fetched req) = true ->
  Main.et0_loop (lat req) (firstn 3 (forecast (fetched req))) 0 (today req)
    = Ok t ->
  t * Main.calculate_crop_coefficient (ndvi_score req) "mid"
    <= Main.expected_rain (firstn 3 (forecast (fetched req)))
  \/ size_hectares req = 0 ->
  Main.calculate_irrigation req = Raise ZeroDivisionError.
Proof.
  intros Hs Hloop Hzero.
  unfold Main.calculate_irrigation; cbv zeta.
  rewrite Hs, Hloop; cbn [negb bind].
  set (net := Main.net_irrigation_mm t _ _).
  assert (Hx : Main.irrigation_m3 net (size_hectares req) = 0).
  { unfold Main.irrigation_m3; cbv zeta.
    destruct Hzero as [Hrain | Harea].
    - unfold net, Main.net_irrigation_mm; cbv zeta.
      rewrite Rmax_left by lra; lra.
    - rewrite Harea; lra. }
  rewrite Hx.
  assert (Hl : returns (Main.liters_per_tree 0 (tree_count req))).
  { rewrite <- liters_per_tree_same; apply mock_liters_per_tree_returns. }
  destruct Hl as [l Hl]; rewrite Hl; cbn [bind].
  unfold Main.calculate_water_savings, Main.traditional_m3.
  rewrite div_by_zero by lra; reflexivity.
Qed.



(** ** The command-line pipeline of main_live_data.py *)

(** X19.  Whenever [run_irrigation_ai] returns, its ET0 is non-negative,
    its crop coefficient lies in [0.5, 0.8], the smart irrigation amount is
    [et0 * kc * 0.1] and so lies between 5 and 8 percent of ET0, the
    traditional amount was not zero, and for a positive traditional amount
    the reported savings do not exceed 100 percent. *)
Theorem live_pipeline_outcome (weather : LiveData.Observation) (ndvi : R)
    (traditional_amount : R) (growth_stage : string) (o : LiveData.Outcome) :
  LiveData.run_irrigation_ai weather ndvi traditional_amount growth_stage = Ok o ->
  0 <= LiveData.out_et0 o /\
  0.5 <= LiveData.out_kc o <= 0.8 /\
  LiveData.smart_irrigation o = LiveData.out_et0 o * LiveData.out_kc o * 0.1 /\
  0.05 * LiveData.out_et0 o <= LiveData.smart_irrigation o
    <= 0.08 * LiveData.out_et0 o /\
  traditional_amount <> 0 /\
  (0 < traditional_amount ->
   percentage_saved (LiveData.out_savings o) <= 100).
Proof.
  unfold LiveData.run_irrigation_ai; cbv zeta.
  destruct (Main.calculate_et0 _ _ _ _ _ _) as [et0 |] eqn:Eet; cbn [bind];
    [| discriminate].
  apply main_et0_nonneg in Eet.
  destruct (kc_on_grid ndvi growth_stage) as [k [Hk [Hk1 Hk2]]].
  apply IZR_le in Hk1, Hk2.
  set (kc := Main.calculate_crop_coefficient ndvi growth_stage) in *.
  assert (Hkc : 0.5 <= kc <= 0.8) by (rewrite Hk; lra).
  unfold Main.calculate_water_savings.
  destruct (Req_dec_T traditional_amount 0) as [E | E].
  - rewrite div_by_zero by exact E; discriminate.
  - rewrite div_ok by exact E; cbn [bind].
    intros H; injection H as <-.
    cbn [LiveData.out_et0 LiveData.out_kc LiveData.smart_irrigation
         LiveData.out_savings percentage_saved].
    split; [exact Eet | split; [exact Hkc | split; [reflexivity |]]].
    split; [nra | split; [exact E |]].
    intros Ht.
    replace 100 with (round (IZR 10000 / 10 ^ 2) 2) at 2
      by (rewrite round_exact; simpl; lra).
    apply round_mono.
    assert (Hi : 0 < / traditional_amount) by (apply Rinv_0_lt_compat; exact Ht).
    assert (Hs : 0 <= et0 * kc * 0.1) by nra.
    assert (Hq : (traditional_amount - et0 * kc * 0.1) / traditional_amount <= 1).
    { apply Rmult_le_reg_r with traditional_amount; [exact Ht |].
      unfold Rdiv; rewrite Rmult_assoc, Rinv_l by lra; lra. }
    simpl; lra.
Qed.

Lemma live_pipeline_outcome_witness :
  exists o,
    LiveData.run_irrigation_ai
      {| LiveData.obs_temp_max := 30; LiveData.obs_temp_min := 20;
         LiveData.obs_humidity := 60; LiveData.obs_wind_speed := 0;
         LiveData.obs_latitude := 0; LiveData.obs_day_of_year := 300 |}
      0.6 5.0 "mid" = Ok o /\
    0 <= LiveData.out_et0 o /\ 0.5 <= LiveData.out_kc o <= 0.8.
Proof.
  assert (Hrun : exists o,
    LiveData.run_irrigation_ai
      {| LiveData.obs_temp_max := 30; LiveData.obs_temp_min := 20;
         LiveData.obs_humidity := 60; LiveData.obs_wind_speed := 0;
         LiveData.obs_latitude := 0; LiveData.obs_day_of_year := 300 |}
      0.6 5.0 "mid" = Ok o).
  { unfold LiveData.run_irrigation_ai; cbv zeta.
    cbn [LiveData.obs_temp_max LiveData.obs_temp_min LiveData.obs_humidity
         LiveData.obs_wind_speed LiveData.obs_latitude LiveData.obs_day_of_year].
    destruct (main_equator_et0 30 20 60 300) as [v [Hv _]]; [lra | lra |].
    rewrite Hv; cbn [bind].
    unfold Main.calculate_water_savings.
    rewrite div_ok by lra; cbn [bind].
    eexists; reflexivity. }
  destruct Hrun as [o Ho].
  exists o; split; [exact Ho |].
  destruct (live_pipeline_outcome _ _ _ _ o Ho) as (H1 & H2 & _).
  split; assumption.
Defined.

(** ** The forecast built by [get_weather] of main.py *)

Lemma daily_entry_keys (it : MainWeather.RawItem) (d : ForecastDay) :
  MainWeather.daily_entry it = Ok d ->
  temp_max d <> None /\ temp_min d <> None /\ humidity d <> None /\
  wind_speed d <> None /\ weather d <> None /\
  rain_probability d = Some (get (MainWeather.pop it) 0 * 100).
Proof.
  unfold MainWeather.daily_entry.
  destruct (item (MainWeather.dt_txt it)); cbn [bind]; [| discriminate].
  destruct (MainWeather.split_first _); cbn [bind]; [| discriminate].
  destruct (item (MainWeather.item_main it)) as [m |]; cbn [bind]; [| discriminate].
  destruct (item (MainWeather.raw_temp_max m)); cbn [bind]; [| discriminate].
  destruct (item (MainWeather.raw_temp_min m)); cbn [bind]; [| discriminate].
  destruct (item (MainWeather.raw_humidity m)); cbn [bind]; [| discriminate].
  destruct (item (MainWeather.item_wind it)) as [w |]; cbn [bind]; [| discriminate].
  destruct (item (MainWeather.raw_speed w)); cbn [bind]; [| discriminate].
  destruct (item (MainWeather.item_weather it)) as [tags |]; cbn [bind];
    [| discriminate].
  destruct (index tags 0) as [tag |]; cbn [bind]; [| discriminate].
  destruct (item (MainWeather.tag_main tag)); cbn [bind]; [| discriminate].
  intros E; injection E as <-; cbn.
  repeat split; discriminate.
Qed.

Lemma collect_entries (items : list MainWeather.RawItem) (indices : list nat) :
  forall days,
    MainWeather.collect items indices = Ok days ->
    length days = length indices /\
    forall j d,
      nth_error days j = Some d ->
      exists i it,
        nth_error indices j = Some i /\ nth_error items i = Some it /\
        MainWeather.daily_entry it = Ok d.
Proof.
  induction indices as [| i rest IH]; intros days.
  - cbn [MainWeather.collect]; intros E; injection E as <-.
    split; [reflexivity |].
    intros [| j] d Hd; discriminate.
  - cbn [MainWeather.collect].
    unfold index at 1.
    destruct (nth_error items i) as [it |] eqn:Ei; cbn [bind]; [| discriminate].
    destruct (MainWeather.daily_entry it) as [day |] eqn:Ed; cbn [bind];
      [| discriminate].
    destruct (MainWeather.collect items rest) as [ds |] eqn:Ec; cbn [bind];
      [| discriminate].
    intros E; injection E as <-.
    destruct (IH ds eq_refl) as [Hlen Hnth].
    split; [cbn [length]; now rewrite Hlen |].
    intros [| j] d Hd.
    + cbn [nth_error] in Hd; injection Hd as <-.
      exists i, it; repeat split; assumption.
    + cbn [nth_error] in Hd |- *; apply Hnth; exact Hd.
Qed.

Lemma range_step8_entries (n : nat) :
  length (MainWeather.range_step8 n) = ((n + 7) / 8)%nat /\
  forall j i, nth_error (MainWeather.range_step8 n) j = Some i -> i = (8 * j)%nat.
Proof.
  unfold MainWeather.range_step8; split.
  - now rewrite length_map, length_seq.
  - intros j i Hj.
    rewrite nth_error_map in Hj.
    destruct (nth_error (seq 0 ((n + 7) / 8)) j) as [k |] eqn:Ek;
      cbn [option_map] in Hj; [| discriminate].
    injection Hj as <-.
    assert (Hlt : (j < length (seq 0 ((n + 7) / 8)))%nat)
      by (apply nth_error_Some; rewrite Ek; discriminate).
    rewrite length_seq in Hlt.
    rewrite (nth_error_nth' _ 0%nat) in Ek by (rewrite length_seq; exact Hlt).
    rewrite seq_nth in Ek by exact Hlt.
    injection Ek as <-; reflexivity.
Qed.

Lemma nth_error_window {A : Type} (n : nat) (l : list A) (j : nat) (x : A) :
  nth_error (firstn n l) j = Some x -> nth_error l j = Some x.
Proof.
  revert n j; induction l as [| y rest IH]; intros n j.
  - rewrite firstn_nil; destruct j; discriminate.
  - destruct n as [| n]; [destruct j; discriminate |].
    destruct j as [| j]; cbn [firstn nth_error]; [trivial | apply IH].
Qed.

(** The successful branch of [get_weather], read backwards. *)
Lemma get_weather_success (c : result MainWeather.RawCurrent)
    (f : result (option (list MainWeather.RawItem))) :
  success (MainWeather.get_weather c f) = true ->
  exists cur lst days,
    c = Ok cur /\ f = Ok lst /\
    MainWeather.collect (get lst [])
      (MainWeather.range_step8 (length (get lst []))) = Ok days /\
    forecast (MainWeather.get_weather c f) = firstn 7 days /\
    temperature (current (MainWeather.get_weather c f)) <> None.
Proof.
  unfold MainWeather.get_weather.
  destruct c as [cur | e]; cbn [bind try_except]; [| discriminate].
  destruct f as [lst | e]; cbn [bind try_except]; [| discriminate].
  cbv zeta.
  destruct (MainWeather.collect _ _) as [days |] eqn:Ec; cbn [bind try_except];
    [| discriminate].
  destruct (item (MainWeather.cur_main cur)) as [m |]; cbn [bind try_except];
    [| discriminate].
  destruct (item (MainWeather.raw_temp m)); cbn [bind try_except]; [| discriminate].
  destruct (item (MainWeather.raw_humidity m)); cbn [bind try_except];
    [| discriminate].
  destruct (item (MainWeather.cur_wind cur)) as [w |]; cbn [bind try_except];
    [| discriminate].
  destruct (item (MainWeather.raw_speed w)); cbn [bind try_except]; [| discriminate].
  destruct (item (MainWeather.cur_tags cur)) as [tags |]; cbn [bind try_except];
    [| discriminate].
  destruct (index tags 0) as [tag |]; cbn [bind try_except]; [| discriminate].
  destruct (item (MainWeather.tag_main tag)); cbn [bind try_except];
    [| discriminate].
  destruct (item (MainWeather.tag_description tag)); cbn [bind try_except];
    [| discriminate].
  intros _; exists cur, lst, days.
  cbn [forecast current temperature].
  repeat split; try reflexivity; try exact Ec; discriminate.
Qed.

(** X20.  When [get_weather] of [main.py] succeeds, its forecast samples the
    OpenWeather list at the positions 0, 8, 16, ...: it has
    [min(7, ceil(n / 8))] entries, entry [j] is built from item [8 * j], it
    carries every key the handler reads, and its rain probability is 100
    times the item's [pop] (0 when [pop] is missing). *)
Theorem forecast_sampling (c : result MainWeather.RawCurrent)
    (f : result (option (list MainWeather.RawItem))) :
  success (MainWeather.get_weather c f) = true ->
  exists lst,
    f = Ok lst /\
    length (forecast (MainWeather.get_weather c f))
      = Nat.min 7 ((length (get lst []) + 7) / 8) /\
    forall j d,
      nth_error (forecast (MainWeather.get_weather c f)) j = Some d ->
      exists it,
        nth_error (get lst []) (8 * j) = Some it /\
        MainWeather.daily_entry it = Ok d /\
        temp_max d <> None /\ temp_min d <> None /\ humidity d <> None /\
        wind_speed d <> None /\ weather d <> None /\
        rain_probability d = Some (get (MainWeather.pop it) 0 * 100).
Proof.
  intros Hs.
  destruct (get_weather_success c f Hs) as (cur & lst & days & _ & Hf & Hc & Hfc & _).
  destruct (collect_entries _ _ days Hc) as [Hlen Hnth].
  destruct (range_step8_entries (length (get lst []))) as [Hrl Hri].
  exists lst; split; [exact Hf | split].
  - rewrite Hfc, length_firstn, Hlen, Hrl; reflexivity.
  - intros j d Hd; rewrite Hfc in Hd.
    apply nth_error_window in Hd.
    destruct (Hnth j d Hd) as (i & it & Hi & Hit & He).
    apply Hri in Hi; subst i.
    exists it; split; [exact Hit | split; [exact He |]].
    apply daily_entry_keys; exact He.
Qed.

Lemma forecast_sampling_witness :
  exists lst,
    Ok (Some [sample_item; blank_item]) = Ok lst /\
    length (forecast (MainWeather.get_weather (Ok sample_current)
                        (Ok (Some [sample_item; blank_item]))))
      = Nat.min 7 ((length (get lst []) + 7) / 8).
Proof.
  assert (Hs : success (MainWeather.get_weather (Ok sample_current)
                          (Ok (Some [sample_item; blank_item]))) = true)
    by reflexivity.
  destruct (forecast_sampling _ _ Hs) as (lst & Hf & Hlen & _).
  exists lst; split; assumption.
Defined.

(** X21.  [get_weather] of [main.py] never fails: it either succeeds or
    returns the built-in three-day mock answer, flagged unsuccessful; it
    does the latter whenever one of the two requests fails.  The handler
    then answers 500, so the mock figures never reach a recommendation. *)
Theorem weather_fallback (c : result MainWeather.RawCurrent)
    (f : result (option (list MainWeather.RawItem))) :
  (success (MainWeather.get_weather c f) = true \/
   MainWeather.get_weather c f = MainWeather.mock_weather) /\
  (success (MainWeather.get_weather c f) = false <->
   MainWeather.get_weather c f = MainWeather.mock_weather) /\
  ((exists e, c = Raise e) \/ (exists e, f = Raise e) ->
   MainWeather.get_weather c f = MainWeather.mock_weather) /\
  (forall req,
     fetched req = MainWeather.get_weather c f ->
     success (MainWeather.get_weather c f) = false ->
     Main.calculate_irrigation req = Ok (Failure 500 "Weather data unavailable")).
Proof.
  assert (Hcases : success (MainWeather.get_weather c f) = true \/
                   MainWeather.get_weather c f = MainWeather.mock_weather).
  { unfold MainWeather.get_weather.
    match goal with
    | |- context [try_except ?body _] => destruct body as [w |] eqn:Eb
    end; cbn [try_except]; [| right; reflexivity].
    left; revert Eb.
    repeat match goal with
           | |- context [bind ?x _] =>
               destruct x; cbn [bind]; [| discriminate]
           end.
    cbv zeta.
    repeat match goal with
           | |- context [bind ?x _] =>
               destruct x; cbn [bind]; [| discriminate]
           end.
    intros E; injection E as <-; reflexivity. }
  split; [exact Hcases | split; [| split]].
  - split.
    + intros Hs; destruct Hcases as [Ht | Hm]; [congruence | exact Hm].
    + intros ->; reflexivity.
  - intros [[e ->] | [e ->]]; unfold MainWeather.get_weather.
    + reflexivity.
    + destruct c; reflexivity.
  - intros req Hreq Hs.
    unfold Main.calculate_irrigation; cbv zeta.
    rewrite Hreq, Hs; reflexivity.
Qed.

Lemma main_failure_is_500 (req : IrrigationRequest) (status : Z) (error : string) :
  Main.calculate_irrigation req = Ok (Failure status error) ->
  success (fetched req) = false /\
  status = 500%Z /\ error = "Weather data unavailable"%string.
Proof.
  unfold Main.calculate_irrigation; cbv zeta.
  destruct (success (fetched req)); cbn [negb].
  - destruct (Main.et0_loop _ _ _ _); cbn [bind]; [| discriminate].
    destruct (Main.liters_per_tree _ _); cbn [bind]; [| discriminate].
    destruct (Main.calculate_water_savings _ _); cbn [bind]; [| discriminate].
    destruct (classify _).
    destruct (item (temperature _)); cbn [bind]; [| discriminate].
    repeat (destruct (index _ _); cbn [bind]; [| discriminate];
            destruct (item (weather _)); cbn [bind]; [| discriminate]).
    discriminate.
  - intros E; injection E as <- <-; repeat split.
Qed.

(** X22.  With fewer than seventeen items in the OpenWeather forecast list
    the handler of [main.py] cannot answer with a recommendation: the
    sampled forecast then has fewer than the three entries it indexes, and
    the handler raises an exception or answers 500. *)
Theorem main_needs_seventeen_items (req : IrrigationRequest)
    (c : result MainWeather.RawCurrent)
    (f : result (option (list MainWeather.RawItem))) :
  fetched req = MainWeather.get_weather c f ->
  (forall lst, f = Ok lst -> (length (get lst []) < 17)%nat) ->
  (exists e, Main.calculate_irrigation req = Raise e) \/
  Main.calculate_irrigation req = Ok (Failure 500 "Weather data unavailable").
Proof.
  intros Hreq Hshort.
  destruct (Main.calculate_irrigation req) as [[r | status error] | e] eqn:H.
  - exfalso.
    destruct (main_answer_fields req r H) as (Hs & Hlen & _).
    rewrite Hreq in Hs, Hlen.
    destruct (get_weather_success c f Hs)
      as (cur & lst & days & _ & Hf & Hc & Hfc & _).
    destruct (collect_entries _ _ days Hc) as [Hdays _].
    destruct (range_step8_entries (length (get lst []))) as [Hrl _].
    rewrite Hfc, length_firstn, Hdays, Hrl in Hlen.
    specialize (Hshort lst Hf).
    assert (Hq : ((length (get lst []) + 7) / 8 <= 2)%nat).
    { apply Nat.lt_succ_r, Nat.Div0.div_lt_upper_bound; lia. }
    lia.
  - right; destruct (main_failure_is_500 req status error H) as (_ & -> & ->).
    reflexivity.
  - left; exists e; reflexivity.
Qed.

Lemma main_needs_seventeen_items_witness :
  (exists e,
     Main.calculate_irrigation
       {| lat := 35.8; size_hectares := 2.0; tree_count := 400; ndvi_score := 0.5;
          fetched := MainWeather.get_weather (Ok sample_current)
                       (Ok (Some [sample_item; blank_item]));
          today := 300 |} = Raise e) \/
  Main.calculate_irrigation
    {| lat := 35.8; size_hectares := 2.0; tree_count := 400; ndvi_score := 0.5;
       fetched := MainWeather.get_weather (Ok sample_current)
                    (Ok (Some [sample_item; blank_item]));
       today := 300 |} = Ok (Failure 500 "Weather data unavailable").
Proof.
  apply (main_needs_seventeen_items _ (Ok sample_current)
           (Ok (Some [sample_item; blank_item]))).
  - reflexivity.
  - intros lst E; injection E as <-; cbn [get length]; lia.
Defined.

Lemma collect_ext (l1 l2 : list MainWeather.RawItem) (indices : list nat) :
  (forall i, In i indices -> nth_error l1 i = nth_error l2 i) ->
  MainWeather.collect l1 indices = MainWeather.collect l2 indices.
Proof.
  induction indices as [| i rest IH]; intros H; [reflexivity |].
  cbn [MainWeather.collect]; unfold index.
  rewrite (H i (or_introl eq_refl)).
  rewrite IH by (intros k Hk; apply H; right; exact Hk).
  reflexivity.
Qed.

(** X23.  [get_weather] of [main.py] reads only every eighth item of the
    forecast list: two lists of the same length that agree at the positions
    0, 8, 16, ... give the same answer, whatever the other items are. *)
Theorem unsampled_items_are_ignored (c : result MainWeather.RawCurrent)
    (l1 l2 : list MainWeather.RawItem) :
  length l1 = length l2 ->
  (forall j, nth_error l1 (8 * j) = nth_error l2 (8 * j)) ->
  MainWeather.get_weather c (Ok (Some l1)) = MainWeather.get_weather c (Ok (Some l2)).
Proof.
  intros Hlen Hsame.
  unfold MainWeather.get_weather.
  destruct c as [cur | e]; cbn [bind get]; [| reflexivity].
  cbv zeta; rewrite Hlen.
  rewrite (collect_ext l1 l2); [reflexivity |].
  intros i Hi; unfold MainWeather.range_step8 in Hi.
  apply in_map_iff in Hi as [j [<- _]].
  apply Hsame.
Qed.

Lemma unsampled_items_are_ignored_witness :
  MainWeather.get_weather (Ok sample_current) (Ok (Some [sample_item; blank_item]))
  = MainWeather.get_weather (Ok sample_current) (Ok (Some [sample_item; sample_item])).
Proof.
  apply unsampled_items_are_ignored; [reflexivity |].
  intros [| j]; [reflexivity |].
  rewrite (proj2 (nth_error_None [sample_item; blank_item] (8 * S j)))
    by (cbn [length]; lia).
  symmetry; apply nth_error_None; cbn [length]; lia.
Defined.

(** ** Which exceptions the handlers can raise *)




Lemma main_et0_loop_raises (lat : R) (l : list ForecastDay) :
  Forall (fun d => temp_max d <> None /\ temp_min d <> None /\
                   humidity d <> None /\ wind_speed d <> None) l ->
  forall total_et0 day_of_year e,
    Main.et0_loop lat l total_et0 day_of_year = Raise e ->
    e = ValueError \/ e = ZeroDivisionError \/ e = OverflowError \/
    e = TypeError.
Proof.
  induction 1 as [| d rest (H1 & H2 & H3 & H4) _ IH];
    intros total_et0 day_of_year e.
  - cbn [Main.et0_loop]; discriminate.
  - cbn [Main.et0_loop].
    destruct (temp_max d); [| contradiction].
    destruct (temp_min d); [| contradiction].
    destruct (humidity d); [| contradiction].
    destruct (wind_speed d); [| contradiction].
    cbn [item bind].
    destruct (Main.calculate_et0 _ _ _ _ _ _) as [v | e'] eqn:Ev; cbn [bind].
    + apply IH.
    + intros E; injection E as <-; apply (main_et0_exceptions _ _ _ _ _ _ _ Ev).
Qed.

Lemma forecast_keys_present (c : result MainWeather.RawCurrent)
    (f : result (option (list MainWeather.RawItem))) :
  success (MainWeather.get_weather c f) = true ->
  Forall (fun d => temp_max d <> None /\ temp_min d <> None /\
                   humidity d <> None /\ wind_speed d <> None /\
                   weather d <> None)
    (firstn 3 (forecast (MainWeather.get_weather c f))) /\
  temperature (current (MainWeather.get_weather c f)) <> None.
Proof.
  intros Hs.
  destruct (get_weather_success c f Hs) as (cur & lst & days & _ & _ & Hc & Hfc & Ht).
  split; [| exact Ht].
  destruct (collect_entries _ _ days Hc) as [_ Hnth].
  apply Forall_window; rewrite Hfc; apply Forall_window.
  apply Forall_forall; intros d Hd.
  apply In_nth_error in Hd as [j Hj].
  destruct (Hnth j d Hj) as (i & it & _ & _ & He).
  apply daily_entry_keys in He; tauto.
Qed.

(** X25.  On the weather that [get_weather] of [main.py] produces, the
    handler never raises [KeyError]: every key it reads from the forecast
    entries and from the current conditions is present. *)
Theorem no_key_error_on_fetched_weather (req : IrrigationRequest)
    (c : result MainWeather.RawCurrent)
    (f : result (option (list MainWeather.RawItem))) (e : exn) :
  fetched req = MainWeather.get_weather c f ->
  Main.calculate_irrigation req = Raise e ->
  e <> KeyError.
Proof.
  intros Hreq.
  unfold Main.calculate_irrigation; cbv zeta.
  destruct (success (fetched req)) eqn:Hs; cbn [negb]; [| discriminate].
  rewrite Hreq in Hs.
  assert (Hs' := Hs).
  apply forecast_keys_present in Hs' as [Hkeys Htemp].
  rewrite Hreq.
  set (fc := firstn 3 (forecast (MainWeather.get_weather c f))) in *.
  destruct (Main.et0_loop _ fc _ _) as [t | e'] eqn:El; cbn [bind].
  2:{ intros E; injection E as <-.
      apply main_et0_loop_raises in El; [| apply Forall_impl with (2 := Hkeys);
                                            intros d Hd; tauto].
      destruct El as [-> | [-> | [-> | ->]]]; discriminate. }
  destruct (Main.liters_per_tree _ _) as [l | e'] eqn:Hl; cbn [bind].
  2:{ exfalso.
      match type of Hl with
      | Main.liters_per_tree ?m ?n = _ =>
          destruct (mock_liters_per_tree_returns m n) as [l' Hl'];
          rewrite liters_per_tree_same in Hl'; congruence
      end. }
  destruct (Main.calculate_water_savings _ _) as [s | e'] eqn:Hsv; cbn [bind].
  2:{ intros E; injection E as <-.
      unfold Main.calculate_water_savings, div in Hsv.
      destruct (Req_dec_T _ 0); cbn [bind] in Hsv; [| discriminate].
      injection Hsv as <-; discriminate. }
  destruct (classify _) as [status urg].
  destruct (temperature (current (MainWeather.get_weather c f))) as [temp |];
    [| contradiction].
  cbn [item bind].
  assert (Hw : forall i d, index fc i = Ok d -> exists w, weather d = Some w).
  { intros i d Hi; unfold index in Hi.
    destruct (nth_error fc i) as [d' |] eqn:En; [| discriminate].
    injection Hi as <-.
    apply nth_error_In in En.
    pose proof (proj1 (Forall_forall _ fc) Hkeys d' En) as Hd.
    cbv beta in Hd.
    destruct (weather d') as [w |]; [exists w; reflexivity |].
    destruct Hd as (_ & _ & _ & _ & Hn); exfalso; apply Hn; reflexivity. }
  assert (Hi : forall i E, index fc i = Raise E -> E = IndexError).
  { intros i E; unfold index; destruct (nth_error fc i); [discriminate |].
    intros E'; now injection E' as <-. }
  destruct (index fc 0) as [d0 | e0] eqn:E0; cbn [bind].
  2:{ intros E; injection E as <-; rewrite (Hi _ _ E0); discriminate. }
  destruct (Hw _ _ E0) as [w0 ->]; cbn [item bind].
  destruct (index fc 1) as [d1 | e1] eqn:E1; cbn [bind].
  2:{ intros E; injection E as <-; rewrite (Hi _ _ E1); discriminate. }
  destruct (Hw _ _ E1) as [w1 ->]; cbn [item bind].
  destruct (index fc 2) as [d2 | e2] eqn:E2; cbn [bind].
  2:{ intros E; injection E as <-; rewrite (Hi _ _ E2); discriminate. }
  destruct (Hw _ _ E2) as [w2 ->]; cbn [item bind].
  discriminate.
Qed.

(** A fetch of seventeen well-formed items gives a three-day forecast.
    For a plot of area 0 the handler reads the readings and the rain
    probability of its three entries, computes a zero volume and raises
    the [ZeroDivisionError] of the savings computation. *)
Lemma fallow_request_raises :
  Main.calculate_irrigation fallow_request = Raise ZeroDivisionError.
Proof.
  assert (Hs : success (fetched fallow_request) = true) by reflexivity.
  assert (Hf : firstn 3 (forecast (fetched fallow_request))
               = [sample_day; sample_day; sample_day]) by reflexivity.
  assert (Hday : forall d, exists v,
             Main.calculate_et0 30 20 60 3.2 35.8 d = Ok v /\ 0 <= v).
  { intros d; apply main_et0_returns; try lra.
    apply sunset_arg_temperate; lra. }
  destruct (Hday 300%Z) as [v0 [E0 _]].
  destruct (Hday 301%Z) as [v1 [E1 _]].
  destruct (Hday 302%Z) as [v2 [E2 _]].
  apply (main_zero_volume_divides fallow_request (0 + v0 + v1 + v2)).
  - exact Hs.
  - rewrite Hf.
    change (lat fallow_request) with 35.8.
    change (today fallow_request) with 300%Z.
    cbn [Main.et0_loop sample_day item temp_max temp_min humidity wind_speed bind].
    change (300 + 1)%Z with 301%Z; change (301 + 1)%Z with 302%Z.
    rewrite E0; cbn [bind]; rewrite E1; cbn [bind]; rewrite E2; reflexivity.
  - right; reflexivity.
Qed.

Lemma no_key_error_on_fetched_weather_witness :
  length (forecast (fetched fallow_request)) = 3%nat /\
  Main.calculate_irrigation fallow_request = Raise ZeroDivisionError /\
  ZeroDivisionError <> KeyError.
Proof.
  split; [reflexivity | split; [exact fallow_request_raises |]].
  refine (no_key_error_on_fetched_weather fallow_request (Ok sample_current)
            (Ok (Some (repeat sample_item 17))) ZeroDivisionError _
            fallow_request_raises).
  reflexivity.
Defined.
